(** * Bhookad backend: promotion ledger and moderation queue

    A shallow embedding of the Express route handlers of
    [routes/vendor-promotions.js] (purchase, cancel, list) and of the two
    sponsored-post review routes ([PATCH /api/vlogger-posts/:id/review] and
    [PATCH /api/admin/posts/:id/review]), together with the part of the
    JavaScript run time and of the Supabase (PostgREST) client they rely on.

    A handler is a function from the database, the environment of the request
    (clock readings, the host's zone, what the gateway answers to each
    statement) and the request to an [outcome]: the response sent, the
    database afterwards and the lines written with [console.error]. *)

From Stdlib Require Import ZArith QArith List String Ascii Bool Lia.
From Stdlib Require Import Sorted Permutation DecimalString.
Import ListNotations.
Close Scope Q_scope.
Local Open Scope string_scope.
Local Open Scope list_scope.
Local Open Scope Z_scope.

(* ------------------------------------------------------------------ *)
(** ** JavaScript values *)

Module JS.

(** A JavaScript number.  A finite number is kept as the rational that the
    binary64 stands for; [binary64] below rounds a rational to one. *)
Inductive number : Type :=
| NaN
| Infinity (negative : bool)
| Fin (q : Q).

(** What a field of [req.body] can hold after [express.json()] or
    [express.urlencoded()]; [Undefined] is an absent field and [Object] an
    object literal. *)
Inductive value : Type :=
| Undefined
| Null
| Boolean (b : bool)
| Number (x : number)
| Str (s : string)
| Object.

(** ToBoolean: what [!v], [v || w] and [v && w] test. *)
Definition truthy (v : value) : bool :=
  match v with
  | Undefined | Null => false
  | Boolean b => b
  | Number NaN => false
  | Number (Infinity _) => true
  | Number (Fin q) => negb (Qnum q =? 0)
  | Str s => negb (s =? "")%string
  | Object => true
  end.

(** [a || b] *)
Definition or_else (a b : value) : value := if truthy a then a else b.

(** [v === s] for a string literal [s] *)
Definition is_string (v : value) (s : string) : bool :=
  match v with
  | Str t => (t =? s)%string
  | _ => false
  end.

(** [xs.includes(v)] for an array of string literals (SameValueZero) *)
Definition includes (xs : list string) (v : value) : bool :=
  existsb (is_string v) xs.

(** *** parseFloat *)

Definition is_white_space (c : ascii) : bool :=
  match nat_of_ascii c with
  | 9%nat | 10%nat | 11%nat | 12%nat | 13%nat | 32%nat => true
  | _ => false
  end.

Definition byte (c : ascii) : Z := Z.of_nat (nat_of_ascii c).

(** The white space and line terminators past U+007F, in the UTF-8 bytes
    that the text is kept in: U+00A0, by two bytes, *)
Definition is_white_space2 (a b : ascii) : bool :=
  (byte a =? 194) && (byte b =? 160).

(** and U+1680, U+2000 to U+200A, U+2028, U+2029, U+202F, U+205F, U+3000
    and U+FEFF, by three. *)
Definition is_white_space3 (a b c : ascii) : bool :=
  ((byte a =? 225) && (byte b =? 154) && (byte c =? 128))
  || ((byte a =? 226) && (byte b =? 128)
      && (((128 <=? byte c) && (byte c <=? 138))
          || (byte c =? 168) || (byte c =? 169) || (byte c =? 175)))
  || ((byte a =? 226) && (byte b =? 129) && (byte c =? 159))
  || ((byte a =? 227) && (byte b =? 128) && (byte c =? 128))
  || ((byte a =? 239) && (byte b =? 187) && (byte c =? 191)).

Fixpoint trim_start (s : string) : string :=
  match s with
  | String c r =>
      if is_white_space c then trim_start r
      else
        match r with
        | String c2 r2 =>
            if is_white_space2 c c2 then trim_start r2
            else
              match r2 with
              | String c3 r3 =>
                  if is_white_space3 c c2 c3 then trim_start r3 else s
              | EmptyString => s
              end
        | EmptyString => s
        end
  | EmptyString => s
  end.

Definition digit (c : ascii) : option Z :=
  let n := Z.of_nat (nat_of_ascii c) in
  if (48 <=? n) && (n <=? 57) then Some (n - 48) else None.

(** Reads the decimal digits at the head of [s]: their value on top of
    [acc], how many were read on top of [cnt], and the rest of the string. *)
Fixpoint digits (s : string) (acc cnt : Z) : Z * Z * string :=
  match s with
  | String c r =>
      match digit c with
      | Some d => digits r (10 * acc + d) (cnt + 1)
      | None => (acc, cnt, s)
      end
  | EmptyString => (acc, cnt, s)
  end.

(** [m * 10 ^ e] *)
Definition scale (m e : Z) : Q :=
  if 0 <=? e then inject_Z (m * 10 ^ e)
  else Qred (Qmake m (Z.to_pos (10 ^ (- e)))).

Definition negate (x : number) : number :=
  match x with
  | NaN => NaN
  | Infinity b => Infinity (negb b)
  | Fin q => Fin (Qopp q)
  end.

(** [n / d] rounded to the nearest integer, a tie to the even one
    ([0 <= n], [0 < d]). *)
Definition round_half_even (n d : Z) : Z :=
  let m := n / d in
  let r := n mod d in
  if 2 * r <? d then m
  else if d <? 2 * r then m + 1
  else if Z.even m then m else m + 1.

(** The Number value for [n / d] ([0 < n], [0 < d]): the binary64 nearest to
    it, a tie to the even significand.  With [2 ^ e <= n / d < 2 ^ (e + 1)]
    the doubles around it are the multiples of [2 ^ k], [k = e - 52], or of
    [2 ^ (-1074)] below the normal range; what rounds to [2 ^ 1024] or more
    is Infinity. *)
Definition binary64_of (n d : Z) : number :=
  let e0 := Z.log2 n - Z.log2 d in
  let below := if 0 <=? e0 then n <? d * 2 ^ e0 else n * 2 ^ (- e0) <? d in
  let e := if below then e0 - 1 else e0 in
  let k := Z.max e (-1022) - 52 in
  if 0 <=? k then
    let m := round_half_even n (d * 2 ^ k) in
    if 2 ^ 1024 <=? m * 2 ^ k then Infinity false
    else Fin (inject_Z (m * 2 ^ k))
  else
    let m := round_half_even (n * 2 ^ (- k)) d in
    Fin (Qred (Qmake m (Z.to_pos (2 ^ (- k))))).

(** The Number value for a rational (ECMA-262, 6.1.6.1), as V8 computes it
    for a literal of any length. *)
Definition binary64 (q : Q) : number :=
  match Qnum q with
  | 0 => Fin 0
  | Z.pos n => binary64_of (Z.pos n) (Z.pos (Qden q))
  | Z.neg n => negate (binary64_of (Z.pos n) (Z.pos (Qden q)))
  end.

(** The ExponentPart at the head of [s]; 0 when there is none (an [e] that no
    digit follows is not part of the literal). *)
Definition exponent (s : string) : Z :=
  match s with
  | String c r =>
      if (c =? "e")%char || (c =? "E")%char then
        let '(sgn, r') :=
          match r with
          | String "+"%char r' => (1, r')
          | String "-"%char r' => (-1, r')
          | _ => (1, r)
          end in
        let '(e, n, _) := digits r' 0 0 in
        if 0 <? n then sgn * e else 0
      else 0
  | EmptyString => 0
  end.

(** The longest prefix of [s] that is an unsigned StrDecimalLiteral. *)
Definition unsigned_literal (s : string) : option number :=
  if prefix "Infinity" s then Some (Infinity false)
  else
    let '(i, ni, r1) := digits s 0 0 in
    let '(f, nf, r2) :=
      match r1 with
      | String "."%char r => digits r 0 0
      | _ => (0, 0, r1)
      end in
    if ni + nf =? 0 then None
    else Some (binary64 (scale (i * 10 ^ nf + f) (exponent r2 - nf))).

Definition parseFloat_string (s : string) : number :=
  let t := trim_start s in
  let '(neg, u) :=
    match t with
    | String "+"%char r => (false, r)
    | String "-"%char r => (true, r)
    | _ => (false, t)
    end in
  match unsigned_literal u with
  | Some x => if neg then negate x else x
  | None => NaN
  end.

(** [parseFloat(v)]: the argument is converted to a string first.  A number
    prints as a literal that reads back as the same number, which for the
    binary64 that a number of a request is leaves it as it is; [undefined],
    [null], a boolean and an object literal print as text that starts with
    no digit. *)
Definition parseFloat (v : value) : number :=
  match v with
  | Number NaN => NaN
  | Number (Infinity b) => Infinity b
  | Number (Fin q) => binary64 q
  | Str s => parseFloat_string s
  | Undefined | Null | Boolean _ | Object => NaN
  end.

End JS.

(* ------------------------------------------------------------------ *)
(** ** Date objects (ECMA-262, "Date Objects")

    A time value is a number of milliseconds since the epoch, here a [Z].
    The host's zone is a fixed offset [tz] in milliseconds (0 for UTC,
    19800000 for IST); a host in a zone with daylight saving, where the
    offset changes with the date, is outside this model. *)

Module JSDate.

Definition msPerDay : Z := 86400000.

Definition Day (t : Z) : Z := t / msPerDay.
Definition TimeWithinDay (t : Z) : Z := t mod msPerDay.

Definition DaysInYear (y : Z) : Z :=
  if negb (y mod 4 =? 0) then 365
  else if negb (y mod 100 =? 0) then 366
  else if negb (y mod 400 =? 0) then 365
  else 366.

Definition DayFromYear (y : Z) : Z :=
  365 * (y - 1970) + (y - 1969) / 4 - (y - 1901) / 100 + (y - 1601) / 400.

(** The largest [y] with [DayFromYear y <= Day t]: the mean length of a year
    gives a first guess that is off by one year at most. *)
Definition YearFromTime (t : Z) : Z :=
  let d := Day t in
  let y := 1970 + (d * 400) / 146097 in
  if d <? DayFromYear y then y - 1
  else if DayFromYear (y + 1) <=? d then y + 1
  else y.

Definition InLeapYear (t : Z) : Z :=
  if DaysInYear (YearFromTime t) =? 366 then 1 else 0.

Definition DayWithinYear (t : Z) : Z := Day t - DayFromYear (YearFromTime t).

(** The day within the year on which month [m] (0 to 11) starts. *)
Definition month_start (leap m : Z) : Z :=
  match m with
  | 0 => 0
  | 1 => 31
  | 2 => 59 + leap
  | 3 => 90 + leap
  | 4 => 120 + leap
  | 5 => 151 + leap
  | 6 => 181 + leap
  | 7 => 212 + leap
  | 8 => 243 + leap
  | 9 => 273 + leap
  | 10 => 304 + leap
  | _ => 334 + leap
  end.

Definition MonthFromTime (t : Z) : Z :=
  let d := DayWithinYear t in
  let l := InLeapYear t in
  if d <? 31 then 0
  else if d <? 59 + l then 1
  else if d <? 90 + l then 2
  else if d <? 120 + l then 3
  else if d <? 151 + l then 4
  else if d <? 181 + l then 5
  else if d <? 212 + l then 6
  else if d <? 243 + l then 7
  else if d <? 273 + l then 8
  else if d <? 304 + l then 9
  else if d <? 334 + l then 10
  else 11.

Definition DateFromTime (t : Z) : Z :=
  DayWithinYear t - month_start (InLeapYear t) (MonthFromTime t) + 1.

(** MakeDay: the day number of the [date]-th day of month [month] of [year];
    months outside 0..11 carry into the year and days past the end of the
    month run on into the next one. *)
Definition MakeDay (year month date : Z) : Z :=
  let ym := year + month / 12 in
  let mn := month mod 12 in
  let leap := if DaysInYear ym =? 366 then 1 else 0 in
  DayFromYear ym + month_start leap mn + date - 1.

Definition MakeDate (day time : Z) : Z := day * msPerDay + time.

(** TimeClip: [None] is the time value NaN of an invalid Date. *)
Definition TimeClip (t : Z) : option Z :=
  if Z.abs t <=? 8640000000000000 then Some t else None.

Definition LocalTime (tz t : Z) : Z := t + tz.
Definition UTC (tz t : Z) : Z := t - tz.

(** [d.getMonth()] *)
Definition getMonth (tz t : Z) : Z := MonthFromTime (LocalTime tz t).

(** [d.getDate()] *)
Definition getDate (tz t : Z) : Z := DateFromTime (LocalTime tz t).

(** [d.getFullYear()] *)
Definition getFullYear (tz t : Z) : Z := YearFromTime (LocalTime tz t).

(** [d.setMonth(month)]: the new time value of [d]. *)
Definition setMonth (tz t month : Z) : option Z :=
  let lt := LocalTime tz t in
  let newDate :=
    MakeDate (MakeDay (YearFromTime lt) month (DateFromTime lt))
             (TimeWithinDay lt) in
  TimeClip (UTC tz newDate).

End JSDate.

(* ------------------------------------------------------------------ *)
(** ** The Supabase client

    The handlers reach the database through [supabase.from(table)] query
    builders only.  A statement either runs on the table or is refused by the
    gateway (network, constraint, type or permission error): which of the two
    is part of the request's environment, as an [option error]. *)

Module Supabase.

(** The [error] member of a reply. *)
Inductive error : Type :=
| NotSingleRow            (* [.single()] on a result that is not one row *)
| DuplicateKey            (* insert of a row id that is taken *)
| Refused (msg : string). (* any other error, with its [message] *)

(** [.single()]: the only row of the result, an error for any other number
    of rows. *)
Definition single {A : Type} (rows : list A) : error + A :=
  match rows with
  | [r] => inr r
  | _ => inl NotSingleRow
  end.

(** The [data] member of a reply, [null] on error. *)
Definition data {A : Type} (reply : error + A) : option A :=
  match reply with
  | inl _ => None
  | inr a => Some a
  end.

(** [.select('*')] with its [.eq] filters [sel], then [.single()]. *)
Definition select_single {A : Type} (fault : option error) (sel : A -> bool)
  (table : list A) : error + A :=
  match fault with
  | Some e => inl e
  | None => single (filter sel table)
  end.

(** [.select('*')] with its [.eq] filters [sel]. *)
Definition select {A : Type} (fault : option error) (sel : A -> bool)
  (table : list A) : error + list A :=
  match fault with
  | Some e => inl e
  | None => inr (filter sel table)
  end.

(** [.insert([row]).select().single()]: the database assigns the row its id
    ([assigned]), which is the table's primary key.  Replies with the stored
    row and gives the table afterwards. *)
Definition insert {A : Type} (assigned : error + string) (id_of : A -> string)
  (row : string -> A) (table : list A) : (error + A) * list A :=
  match assigned with
  | inl e => (inl e, table)
  | inr i =>
      if existsb (fun r => (id_of r =? i)%string) table
      then (inl DuplicateKey, table)
      else (inr (row i), table ++ [row i])
  end.

(** [.update(patch)] with its [.eq] filters [sel]: every selected row is
    patched; no row selected is no error. *)
Definition update {A : Type} (fault : option error) (sel : A -> bool)
  (patch : A -> A) (table : list A) : option error * list A :=
  match fault with
  | Some e => (Some e, table)
  | None => (None, map (fun r => if sel r then patch r else r) table)
  end.

(** [.update(patch)] with its filters, then [.select().single()]: PostgREST
    runs the statement in a transaction that it rolls back when the result
    is not one row. *)
Definition update_single {A : Type} (fault : option error) (sel : A -> bool)
  (patch : A -> A) (table : list A) : (error + A) * list A :=
  match fault with
  | Some e => (inl e, table)
  | None =>
      match filter sel table with
      | [r] => (inr (patch r),
                map (fun x => if sel x then patch x else x) table)
      | _ => (inl NotSingleRow, table)
      end
  end.

End Supabase.

(* ------------------------------------------------------------------ *)
(** ** Tables, requests and responses *)

(** A row of [vendor_promotions].  Dates are kept as time values:
    [toISOString] prints a valid one without loss. *)
Record promotion : Type := {
  id : string;
  vendor_id : string;
  package_id : JS.value;
  package_name : JS.value;
  package_price : JS.number;
  package_duration : JS.value;
  start_date : Z;
  end_date : Z;
  status : string;
  payment_id : string;
  payment_method : JS.value;
  payment_status : string;
  created_at : Z;
  cancelled_at : option Z
}.

(** The columns of a row of [vendors] that the promotion routes write. *)
Record vendor : Type := {
  v_id : string;
  is_featured : bool;
  promotion_tier : JS.value;
  featured_until : option Z;
  updated_at : option Z
}.

(** The columns of a row of [vlogger_posts] that a review reads or writes;
    [None] is SQL null. *)
Record post : Type := {
  post_id : string;
  post_status : string;
  admin_notes : JS.value;
  payout_amount : option JS.number;
  reviewed_at : option Z;
  reviewed_by : option string
}.

Record database : Type := {
  vendor_promotions : list promotion;
  vendors : list vendor;
  vlogger_posts : list post
}.

(** [req.user], set by the authentication middleware. *)
Record user : Type := {
  user_id : option string;
  role : option string
}.

Record request (B : Type) : Type := {
  req_user : option user;
  params_id : string;
  body : B
}.
Arguments req_user {B} _.
Arguments params_id {B} _.
Arguments body {B} _.

(** [req.user?.id], when it is truthy *)
Definition user_id_of {B : Type} (req : request B) : option string :=
  match req_user req with
  | Some u =>
      match user_id u with
      | Some i => if (i =? "")%string then None else Some i
      | None => None
      end
  | None => None
  end.

(** [req.user?.role !== 'admin'] *)
Definition not_admin {B : Type} (req : request B) : bool :=
  match req_user req with
  | Some u =>
      match role u with
      | Some r => negb (r =? "admin")%string
      | None => true
      end
  | None => true
  end.

(** What a handler caught or was handed back and prints or sends. *)
Inductive failure : Type :=
| GatewayError (e : Supabase.error)
| RangeError.   (* [toISOString] of an invalid Date *)

Inductive message : Type :=
| Text (s : string)
| ErrorMessage (e : Supabase.error).   (* [error.message] *)

Inductive payload : Type :=
| NoData
| Promotions (ps : list promotion)
| Purchased (p : promotion) (payment : string)
| Promotion (p : promotion)
| Post (p : post).

(** [res.status(code).json({ success, message, ... })] *)
Record response : Type := {
  code : Z;
  success : bool;
  msg : option message;
  payload_of : payload
}.

(** A line of [console.error(label, error)]. *)
Record log_line : Type := {
  label : string;
  logged : failure
}.

Record outcome : Type := {
  sent : response;
  db_after : database;
  log : list log_line
}.

Definition fail (db : database) (c : Z) (m : message) : outcome :=
  {| sent := {| code := c; success := false; msg := Some m;
                payload_of := NoData |};
     db_after := db; log := [] |}.

Definition with_promotions (db : database) (t : list promotion) : database :=
  {| vendor_promotions := t; vendors := vendors db;
     vlogger_posts := vlogger_posts db |}.

Definition with_vendors (db : database) (t : list vendor) : database :=
  {| vendor_promotions := vendor_promotions db; vendors := t;
     vlogger_posts := vlogger_posts db |}.

Definition with_posts (db : database) (t : list post) : database :=
  {| vendor_promotions := vendor_promotions db; vendors := vendors db;
     vlogger_posts := t |}.

(* ------------------------------------------------------------------ *)
(** ** routes/vendor-promotions.js *)

Module VendorPromotions.

(** [.order('created_at', { ascending: false })]; the database leaves the
    order of rows with the same [created_at] open, here they come in the
    reverse order of the table. *)
Fixpoint insert_desc (p : promotion) (ps : list promotion) : list promotion :=
  match ps with
  | [] => [p]
  | q :: qs =>
      if created_at q <? created_at p then p :: ps
      else q :: insert_desc p qs
  end.

Definition order_desc (ps : list promotion) : list promotion :=
  fold_right insert_desc [] ps.

(** [GET /api/vendor-promotions] *)
Definition get_promotions (db : database) (fault : option Supabase.error)
  (req : request unit) : outcome :=
  match user_id_of req with
  | None => fail db 401 (Text "Authentication required")
  | Some vendorId =>
      match Supabase.select fault
              (fun p => (vendor_id p =? vendorId)%string)
              (vendor_promotions db) with
      | inl error => fail db 400 (ErrorMessage error)
      | inr promotions =>
          {| sent := {| code := 200; success := true; msg := None;
                        payload_of := Promotions (order_desc promotions) |};
             db_after := db; log := [] |}
      end
  end.

Record purchase_body : Type := {
  b_package_id : JS.value;
  b_package_name : JS.value;
  b_package_price : JS.value;
  b_package_duration : JS.value;
  b_payment_method : JS.value
}.

(** The environment of a purchase: the host's zone, what each [new Date()]
    reads, in the order of the source, what [Math.random().toString(36)]
    gives, and what the gateway does with the three statements. *)
Record purchase_env : Type := {
  tz : Z;
  now_start : Z;
  now_end : Z;
  now_created : Z;
  now_updated : Z;
  random36 : string;
  check_fault : option Supabase.error;
  inserted : Supabase.error + string;
  sync_fault : option Supabase.error
}.

(** [{ is_featured: true, promotion_tier: package_id, featured_until, updated_at }] *)
Definition feature (tier : JS.value) (until now : Z) (v : vendor) : vendor :=
  {| v_id := v_id v; is_featured := true; promotion_tier := tier;
     featured_until := Some until; updated_at := Some now |}.

(** [{ is_featured: false, promotion_tier: null, featured_until: null, updated_at }] *)
Definition unfeature (now : Z) (v : vendor) : vendor :=
  {| v_id := v_id v; is_featured := false; promotion_tier := JS.Null;
     featured_until := None; updated_at := Some now |}.

(** The selection of the check before the insert:
    [.eq('vendor_id', vendorId).eq('status', 'active')] *)
Definition active_of (vendorId : string) (p : promotion) : bool :=
  (vendor_id p =? vendorId)%string && (status p =? "active")%string.

(** The end date: [endDate.setMonth(endDate.getMonth() + n)] for the three
    durations, [endDate] as it was read for any other. *)
Definition end_of (env : purchase_env) (package_duration : JS.value)
  : option Z :=
  let endDate := now_end env in
  if JS.is_string package_duration "1 Month" then
    JSDate.setMonth (tz env) endDate (JSDate.getMonth (tz env) endDate + 1)
  else if JS.is_string package_duration "3 Months" then
    JSDate.setMonth (tz env) endDate (JSDate.getMonth (tz env) endDate + 3)
  else if JS.is_string package_duration "6 Months" then
    JSDate.setMonth (tz env) endDate (JSDate.getMonth (tz env) endDate + 6)
  else Some endDate.

(** What the first part of a purchase has in hand when the insert went
    through. *)
Record committed : Type := {
  c_vendor : string;
  c_promotion : promotion;
  c_payment : string;
  c_end : Z;
  c_db : database
}.

(** [POST /api/vendor-promotions/purchase], up to the insert and the test of
    [insertError]: either the handler has answered, or the promotion is
    stored. *)
Definition purchase_ledger (db : database) (env : purchase_env)
  (req : request purchase_body) : outcome + committed :=
  let b := body req in
  let payment_method :=
    match b_payment_method b with
    | JS.Undefined => JS.Str "test"
    | v => v
    end in
  match user_id_of req with
  | None => inl (fail db 401 (Text "Authentication required"))
  | Some vendorId =>
      if negb (JS.truthy (b_package_id b))
         || negb (JS.truthy (b_package_name b))
         || negb (JS.truthy (b_package_price b))
         || negb (JS.truthy (b_package_duration b))
      then inl (fail db 400 (Text "Package details are required"))
      else
        let existingPromotion :=
          Supabase.data
            (Supabase.select_single (check_fault env) (active_of vendorId)
               (vendor_promotions db)) in
        match existingPromotion with
        | Some _ =>
            inl (fail db 400
                   (Text "You already have an active promotion. Please wait for it to expire."))
        | None =>
            let startDate := now_start env in
            let paymentId := ("pay_" ++ substring 2 9 (random36 env))%string in
            match end_of env (b_package_duration b) with
            | None =>
                inl {| sent := {| code := 500; success := false;
                                  msg := Some (Text "Server error");
                                  payload_of := NoData |};
                       db_after := db;
                       log := [ {| label := "Promotion purchase error:";
                                   logged := RangeError |} ] |}
            | Some endDate =>
                let row i :=
                  {| id := i;
                     vendor_id := vendorId;
                     package_id := b_package_id b;
                     package_name := b_package_name b;
                     package_price := JS.parseFloat (b_package_price b);
                     package_duration := b_package_duration b;
                     start_date := startDate;
                     end_date := endDate;
                     status := "active";
                     payment_id := paymentId;
                     payment_method := payment_method;
                     payment_status := "completed";
                     created_at := now_created env;
                     cancelled_at := None |} in
                match Supabase.insert (inserted env) id row
                        (vendor_promotions db) with
                | (inl insertError, _) =>
                    inl (fail db 400 (ErrorMessage insertError))
                | (inr promotion, table) =>
                    inr {| c_vendor := vendorId;
                           c_promotion := promotion;
                           c_payment := paymentId;
                           c_end := endDate;
                           c_db := with_promotions db table |}
                end
            end
        end
  end.

(** [POST /api/vendor-promotions/purchase] *)
Definition purchase (db : database) (env : purchase_env)
  (req : request purchase_body) : outcome :=
  match purchase_ledger db env req with
  | inl answered => answered
  | inr c =>
      let '(updateError, table) :=
        Supabase.update (sync_fault env)
          (fun v => (v_id v =? c_vendor c)%string)
          (feature (b_package_id (body req)) (c_end c) (now_updated env))
          (vendors (c_db c)) in
      {| sent := {| code := 201; success := true;
                    msg := Some (Text "Promotion purchased successfully!");
                    payload_of := Purchased (c_promotion c) (c_payment c) |};
         db_after := with_vendors (c_db c) table;
         log := match updateError with
                | Some e => [ {| label := "Error updating vendor profile:";
                                 logged := GatewayError e |} ]
                | None => []
                end |}
  end.

(** The environment of a cancellation. *)
Record cancel_env : Type := {
  now_cancelled : Z;
  now_unfeatured : Z;
  update_fault : option Supabase.error;
  unsync_fault : option Supabase.error
}.

(** [{ status: 'cancelled', cancelled_at }] *)
Definition cancelled (now : Z) (p : promotion) : promotion :=
  {| id := id p;
     vendor_id := vendor_id p;
     package_id := package_id p;
     package_name := package_name p;
     package_price := package_price p;
     package_duration := package_duration p;
     start_date := start_date p;
     end_date := end_date p;
     status := "cancelled";
     payment_id := payment_id p;
     payment_method := payment_method p;
     payment_status := payment_status p;
     created_at := created_at p;
     cancelled_at := Some now |}.

(** The selection of a cancellation: [.eq('id', id).eq('vendor_id', vendorId)] *)
Definition owned (i vendorId : string) (p : promotion) : bool :=
  (id p =? i)%string && (vendor_id p =? vendorId)%string.

(** [PATCH /api/vendor-promotions/:id/cancel] *)
Definition cancel (db : database) (env : cancel_env) (req : request unit)
  : outcome :=
  match user_id_of req with
  | None => fail db 401 (Text "Authentication required")
  | Some vendorId =>
      match Supabase.update_single (update_fault env)
              (owned (params_id req) vendorId)
              (cancelled (now_cancelled env))
              (vendor_promotions db) with
      | (inl error, _) => fail db 400 (ErrorMessage error)
      | (inr promotion, table) =>
          let '(updateError, vtable) :=
            Supabase.update (unsync_fault env)
              (fun v => (v_id v =? vendorId)%string)
              (unfeature (now_unfeatured env))
              (vendors db) in
          {| sent := {| code := 200; success := true;
                        msg := Some (Text "Promotion cancelled successfully");
                        payload_of := Promotion promotion |};
             db_after := with_vendors (with_promotions db table) vtable;
             log := match updateError with
                    | Some e => [ {| label := "Error updating vendor profile:";
                                     logged := GatewayError e |} ]
                    | None => []
                    end |}
      end
  end.

(** A vendor's requests, one after the other. *)
Inductive operation : Type :=
| Purchase (env : purchase_env) (req : request purchase_body)
| Cancel (env : cancel_env) (req : request unit).

Definition step (db : database) (op : operation) : database :=
  match op with
  | Purchase env req => db_after (purchase db env req)
  | Cancel env req => db_after (cancel db env req)
  end.

Definition run (db : database) (ops : list operation) : database :=
  fold_left step ops db.

(** The gateway answered the check of a purchase from the table. *)
Definition check_answered (op : operation) : bool :=
  match op with
  | Purchase env _ =>
      match check_fault env with
      | None => true
      | Some _ => false
      end
  | Cancel _ _ => true
  end.

(** The rows a query for the active promotions of [vendorId] returns. *)
Definition active_rows (vendorId : string) (db : database) : list promotion :=
  filter (active_of vendorId) (vendor_promotions db).

End VendorPromotions.

(* ------------------------------------------------------------------ *)
(** ** The review of a sponsored post

    [PATCH /api/vlogger-posts/:id/review] and
    [PATCH /api/admin/posts/:id/review] have the same handler, statement for
    statement. *)

Module PostReview.

Record review_body : Type := {
  b_status : JS.value;
  b_admin_notes : JS.value;
  b_payout_amount : JS.value
}.

Record review_env : Type := {
  now_reviewed : Z;
  review_fault : option Supabase.error
}.

(** The object [updateData]; a field that is [None] is not in the object
    (an [undefined] member is not sent either). *)
Record update_data : Type := {
  u_status : string;
  u_admin_notes : JS.value;
  u_reviewed_at : Z;
  u_reviewed_by : option string;
  u_payout_amount : option JS.number
}.

(** [['approved', 'rejected'].includes(status)], with the string that
    [status] then is. *)
Definition decision (status : JS.value) : option string :=
  if JS.includes ["approved"; "rejected"] status then
    match status with
    | JS.Str s => Some s
    | _ => None
    end
  else None.

(** [req.user?.id] *)
Definition adminId {B : Type} (req : request B) : option string :=
  match req_user req with
  | Some u => user_id u
  | None => None
  end.

(** The statements that build [updateData]. *)
Definition updateData (env : review_env) (req : request review_body)
  (status : string) : update_data :=
  let b := body req in
  {| u_status := status;
     u_admin_notes := JS.or_else (b_admin_notes b) JS.Null;
     u_reviewed_at := now_reviewed env;
     u_reviewed_by := adminId req;
     u_payout_amount :=
       if (status =? "approved")%string && JS.truthy (b_payout_amount b)
       then Some (JS.parseFloat (b_payout_amount b))
       else None |}.

(** What [.update(updateData)] does to a row.  The object is sent as JSON,
    in which NaN and the infinities are [null]: such a payout clears the
    column. *)
Definition apply (u : update_data) (p : post) : post :=
  {| post_id := post_id p;
     post_status := u_status u;
     admin_notes := u_admin_notes u;
     payout_amount :=
       match u_payout_amount u with
       | Some (JS.Fin x) => Some (JS.Fin x)
       | Some _ => None
       | None => payout_amount p
       end;
     reviewed_at := Some (u_reviewed_at u);
     reviewed_by :=
       match u_reviewed_by u with
       | Some a => Some a
       | None => reviewed_by p
       end |}.

(** The selection of a review: [.eq('id', id)] *)
Definition reviewed (req : request review_body) (p : post) : bool :=
  (post_id p =? params_id req)%string.

Definition review (db : database) (env : review_env)
  (req : request review_body) : outcome :=
  if not_admin req then fail db 403 (Text "Admin access required")
  else
    match decision (b_status (body req)) with
    | None => fail db 400 (Text "Status must be approved or rejected")
    | Some status =>
        match Supabase.update_single (review_fault env)
                (reviewed req)
                (apply (updateData env req status))
                (vlogger_posts db) with
        | (inl error, _) => fail db 400 (ErrorMessage error)
        | (inr post, table) =>
            {| sent := {| code := 200; success := true;
                          msg := Some (Text ("Post " ++ status ++ " successfully")%string);
                          payload_of := Post post |};
               db_after := with_posts db table;
               log := [] |}
        end
    end.

End PostReview.

(* ------------------------------------------------------------------ *)
(** ** Properties of states and requests used in the statements *)

Import VendorPromotions PostReview.

(** A query for the active promotions of a vendor returns one row at most. *)
Definition one_active (db : database) : Prop :=
  forall vendorId, (List.length (active_rows vendorId db) <= 1)%nat.

(** The four fields that a purchase tests with [!]. *)
Definition package_details (b : purchase_body) : bool :=
  JS.truthy (b_package_id b) && JS.truthy (b_package_name b)
  && JS.truthy (b_package_price b) && JS.truthy (b_package_duration b).

(** The environment [env] with another answer to the update of [vendors]. *)
Definition syncing (f : option Supabase.error) (env : purchase_env)
  : purchase_env :=
  {| tz := tz env; now_start := now_start env; now_end := now_end env;
     now_created := now_created env; now_updated := now_updated env;
     random36 := random36 env; check_fault := check_fault env;
     inserted := inserted env; sync_fault := f |}.

Definition unsyncing (f : option Supabase.error) (env : cancel_env)
  : cancel_env :=
  {| now_cancelled := now_cancelled env;
     now_unfeatured := now_unfeatured env;
     update_fault := update_fault env; unsync_fault := f |}.

(** The line a handler prints when the update of [vendors] is refused. *)
Definition sync_line (e : Supabase.error) : log_line :=
  {| label := "Error updating vendor profile:"; logged := GatewayError e |}.

(** The promotions of a reply of [get_promotions]. *)
Definition listed (o : outcome) : list promotion :=
  match payload_of (sent o) with
  | Promotions ps => ps
  | _ => []
  end.

(** A number that is greater than zero. *)
Definition positive (x : JS.number) : bool :=
  match x with
  | JS.NaN => false
  | JS.Infinity negative => negb negative
  | JS.Fin q => 0 <? Qnum q
  end.

(** The request with no [payout_amount] in its body. *)
Definition without_payout (req : request review_body) : request review_body :=
  {| req_user := req_user req; params_id := params_id req;
     body := {| b_status := b_status (body req);
                b_admin_notes := b_admin_notes (body req);
                b_payout_amount := JS.Undefined |} |}.

(** *** The statements of the specification that the handlers do not meet

    Each is the specification's sentence at one request, to be held against
    what the handler does there. *)

(** Lazy expiry: an active promotion of the vendor whose end date is not
    after [now] is not listed as active. *)
Definition lists_expired (db : database) (req : request unit) (now : Z) : Prop :=
  forall vendorId p q,
    user_id_of req = Some vendorId ->
    In p (vendor_promotions db) -> vendor_id p = vendorId ->
    status p = "active" -> end_date p <= now ->
    In q (listed (get_promotions db None req)) -> id q = id p ->
    status q <> "active".

(** A purchase whose price is no positive number, or whose duration is none
    of the three, is refused with status 400 and writes nothing. *)
Definition refuses_ill_formed (db : database) (env : purchase_env)
  (req : request purchase_body) : Prop :=
  positive (JS.parseFloat (b_package_price (body req))) = false
  \/ JS.includes ["1 Month"; "3 Months"; "6 Months"]
       (b_package_duration (body req)) = false ->
  code (sent (purchase db env req)) = 400
  /\ db_after (purchase db env req) = db.

(** The cancellation of a promotion of the vendor that is cancelled already
    fails and modifies no record. *)
Definition refuses_cancelled (db : database) (env : cancel_env)
  (req : request unit) : Prop :=
  forall vendorId p,
    user_id_of req = Some vendorId ->
    In p (vendor_promotions db) ->
    owned (params_id req) vendorId p = true ->
    status p = "cancelled" ->
    success (sent (cancel db env req)) = false
    /\ db_after (cancel db env req) = db.

(** The cancellation of a promotion that does not exist, or is not the
    calling vendor's, is answered as NotFound, which is status 404, and
    modifies no record. *)
Definition reports_not_found (db : database) (env : cancel_env)
  (req : request unit) : Prop :=
  forall vendorId,
    user_id_of req = Some vendorId ->
    (forall p, In p (vendor_promotions db) ->
               owned (params_id req) vendorId p = false) ->
    code (sent (cancel db env req)) = 404
    /\ db_after (cancel db env req) = db.

(** The post that a review with the decision "rejected" updates has no
    [payout_amount]. *)
Definition rejection_leaves_no_payout (db : database) (env : review_env)
  (req : request review_body) : Prop :=
  b_status (body req) = JS.Str "rejected" ->
  forall p',
    payload_of (sent (review db env req)) = Post p' ->
    payout_amount p' = None.


(* ------------------------------------------------------------------ *)
(** ** Sample states and requests *)

Module Sample.

Definition empty : database :=
  {| vendor_promotions := []; vendors := []; vlogger_posts := [] |}.

Definition as_vendor {B : Type} (v i : string) (b : B) : request B :=
  {| req_user := Some {| user_id := Some v; role := Some "vendor" |};
     params_id := i; body := b |}.

Definition as_admin {B : Type} (a i : string) (b : B) : request B :=
  {| req_user := Some {| user_id := Some a; role := Some "admin" |};
     params_id := i; body := b |}.

Definition package (pid name : string) (price : JS.value) (duration : string)
  : purchase_body :=
  {| b_package_id := JS.Str pid; b_package_name := JS.Str name;
     b_package_price := price; b_package_duration := JS.Str duration;
     b_payment_method := JS.Undefined |}.

Definition basic : purchase_body :=
  package "basic" "Basic Boost" (JS.Number (JS.Fin 2999)) "1 Month".

Definition premium : purchase_body :=
  package "premium" "Premium Push" (JS.Number (JS.Fin 7999)) "3 Months".

(** A host on UTC where every clock reading of the request gives [now] and
    the gateway runs every statement, giving the new row the id [i]. *)
Definition at_time (now : Z) (i : string) : purchase_env :=
  {| tz := 0; now_start := now; now_end := now; now_created := now;
     now_updated := now; random36 := "0.4fzyo82mvyr";
     check_fault := None; inserted := inr i; sync_fault := None |}.

Definition cancel_at (now : Z) : cancel_env :=
  {| now_cancelled := now; now_unfeatured := now;
     update_fault := None; unsync_fault := None |}.

Definition review_at (now : Z) : review_env :=
  {| now_reviewed := now; review_fault := None |}.

(** 2025-01-15T10:00:00.000Z and 2025-01-31T10:00:00.000Z *)
Definition jan15 : Z := 1736935200000.
Definition jan31 : Z := 1738317600000.

Definition dhaba : vendor :=
  {| v_id := "v1"; is_featured := false; promotion_tier := JS.Null;
     featured_until := None; updated_at := None |}.

Definition market : database :=
  {| vendor_promotions := []; vendors := [dhaba]; vlogger_posts := [] |}.

(** The vendor "v1" buys "premium", tries to buy "basic" a day later and
    then cancels the promotion. *)
Definition history : list operation :=
  [ Purchase (at_time jan15 "p1") (as_vendor "v1" "" premium);
    Purchase (at_time (jan15 + 86400000) "p2") (as_vendor "v1" "" basic);
    Cancel (cancel_at (jan15 + 2 * 86400000)) (as_vendor "v1" "p1" tt) ].

(** The ledger of a vendor whose promotion ended on 2025-01-15 and was
    never touched since. *)
Definition ended : promotion :=
  {| id := "p0"; vendor_id := "v1";
     package_id := JS.Str "basic"; package_name := JS.Str "Basic Boost";
     package_price := JS.Fin 2999; package_duration := JS.Str "1 Month";
     start_date := 1734256800000; end_date := jan15;
     status := "active"; payment_id := "pay_9x2kq71ab";
     payment_method := JS.Str "test"; payment_status := "completed";
     created_at := 1734256800000; cancelled_at := None |}.

Definition stale : database :=
  {| vendor_promotions := [ended]; vendors := [dhaba]; vlogger_posts := [] |}.

(** A post that admin "a1" approved with a payout of 500, and one that is
    still pending. *)
Definition approved_post : post :=
  {| post_id := "post1"; post_status := "approved";
     admin_notes := JS.Str "good reach"; payout_amount := Some (JS.Fin 500);
     reviewed_at := Some jan15; reviewed_by := Some "a1" |}.

Definition pending_post : post :=
  {| post_id := "post2"; post_status := "pending";
     admin_notes := JS.Null; payout_amount := None;
     reviewed_at := None; reviewed_by := None |}.

Definition queue : database :=
  {| vendor_promotions := []; vendors := [];
     vlogger_posts := [approved_post; pending_post] |}.

Definition verdict (status notes payout : JS.value) : review_body :=
  {| b_status := status; b_admin_notes := notes; b_payout_amount := payout |}.

(** The promotion that the first purchase of [history] stores. *)
Definition bought : promotion :=
  {| id := "p1"; vendor_id := "v1";
     package_id := JS.Str "premium"; package_name := JS.Str "Premium Push";
     package_price := JS.Fin 7999; package_duration := JS.Str "3 Months";
     start_date := jan15; end_date := 1744711200000;
     status := "active"; payment_id := "pay_4fzyo82mv";
     payment_method := JS.Str "test"; payment_status := "completed";
     created_at := jan15; cancelled_at := None |}.

(** The states that [history] goes through after the first purchase and
    leaves at its end. *)
Definition after_purchase : database :=
  {| vendor_promotions := [bought];
     vendors := [feature (JS.Str "premium") 1744711200000 jan15 dhaba];
     vlogger_posts := [] |}.

Definition after_history : database :=
  {| vendor_promotions := [cancelled (jan15 + 2 * 86400000) bought];
     vendors := [unfeature (jan15 + 2 * 86400000) dhaba];
     vlogger_posts := [] |}.

End Sample.

(* ------------------------------------------------------------------ *)
(** ** Further notions used in the statements *)

(** The row that a purchase by [vendorId] inserts when the database gives it
    the id [i] and the end date is [endDate]. *)
Definition purchased_row (vendorId : string) (env : purchase_env)
  (b : purchase_body) (endDate : Z) (i : string) : promotion :=
  {| id := i;
     vendor_id := vendorId;
     package_id := b_package_id b;
     package_name := b_package_name b;
     package_price := JS.parseFloat (b_package_price b);
     package_duration := b_package_duration b;
     start_date := now_start env;
     end_date := endDate;
     status := "active";
     payment_id := ("pay_" ++ substring 2 9 (random36 env))%string;
     payment_method :=
       match b_payment_method b with
       | JS.Undefined => JS.Str "test"
       | v => v
       end;
     payment_status := "completed";
     created_at := now_created env;
     cancelled_at := None |}.

(** The columns of a promotion that no route writes after the insert. *)
Definition bought_columns (p : promotion) :=
  (id p, vendor_id p, package_id p, package_name p, package_price p,
   package_duration p, start_date p, end_date p, payment_id p,
   payment_method p, payment_status p, created_at p).

(** A status that the routes of the ledger write. *)
Definition written_status (p : promotion) : Prop :=
  status p = "active" \/ status p = "cancelled".

(** Newest first, by [created_at]. *)
Definition newer (p q : promotion) : Prop := created_at q <= created_at p.

(** Further states and requests. *)
Module Scenario.

(** The vendor "v1" buys "premium", cancels it, buys "basic" and then
    cancels the first promotion once more. *)
Definition rebuy : list operation :=
  [ Purchase (Sample.at_time Sample.jan15 "p1")
      (Sample.as_vendor "v1" "" Sample.premium);
    Cancel (Sample.cancel_at (Sample.jan15 + 86400000))
      (Sample.as_vendor "v1" "p1" tt);
    Purchase (Sample.at_time (Sample.jan15 + 2 * 86400000) "p2")
      (Sample.as_vendor "v1" "" Sample.basic) ].

(** The promotion that the second purchase of [rebuy] stores. *)
Definition rebought : promotion :=
  purchased_row "v1" (Sample.at_time (Sample.jan15 + 2 * 86400000) "p2")
    Sample.basic 1739786400000 "p2".

(** The state that [rebuy] leaves. *)
Definition after_rebuy : database :=
  {| vendor_promotions :=
       [cancelled (Sample.jan15 + 86400000) Sample.bought; rebought];
     vendors :=
       [feature (JS.Str "basic") 1739786400000
          (Sample.jan15 + 2 * 86400000) Sample.dhaba];
     vlogger_posts := [] |}.

Definition two_weeks : purchase_body :=
  Sample.package "basic" "Basic Boost" (JS.Number (JS.Fin 2999)) "2 Weeks".

(** The environment of a purchase on 2025-01-31 whose check the gateway
    refuses. *)
Definition check_refused : purchase_env :=
  {| tz := 0; now_start := Sample.jan31; now_end := Sample.jan31;
     now_created := Sample.jan31; now_updated := Sample.jan31;
     random36 := "0.8c1kq02hxe7";
     check_fault := Some (Supabase.Refused "upstream request timeout");
     inserted := inr "p2"; sync_fault := None |}.

(** The vendor "v1" buys "premium" and, sixteen days later, "basic", the
    gateway refusing the check of the second purchase. *)
Definition double_buy : list operation :=
  [ Purchase (Sample.at_time Sample.jan15 "p1")
      (Sample.as_vendor "v1" "" Sample.premium);
    Purchase check_refused (Sample.as_vendor "v1" "" Sample.basic) ].

End Scenario.

(* ------------------------------------------------------------------ *)
(** ** The catalog of packages *)

Module PromotionPackages.

Record package : Type := {
  pk_id : string;
  pk_name : string;
  pk_price : Z;
  pk_duration : string;
  pk_features : list string;
  pk_color : string;
  pk_popular : bool
}.

(** The array [packages] of [GET /api/vendor-promotions/packages], which
    the route sends as it is with status 200. *)
Definition packages : list package :=
  [ {| pk_id := "basic"; pk_name := "Basic Boost"; pk_price := 2999;
       pk_duration := "1 Month";
       pk_features := [ "Featured in search results";
                        "Homepage banner (2 days)";
                        "Social media mentions";
                        "Basic analytics" ];
       pk_color := "blue"; pk_popular := false |};
    {| pk_id := "premium"; pk_name := "Premium Push"; pk_price := 7999;
       pk_duration := "3 Months";
       pk_features := [ "Top search placement";
                        "Homepage banner (1 week)";
                        "Vlogger collaboration priority";
                        "Advanced analytics";
                        "Customer review highlights" ];
       pk_color := "orange"; pk_popular := true |};
    {| pk_id := "ultimate"; pk_name := "Ultimate Exposure";
       pk_price := 19999; pk_duration := "6 Months";
       pk_features := [ "Premium placement everywhere";
                        "Dedicated promotion page";
                        "Guaranteed vlogger partnerships";
                        "Complete analytics suite";
                        "Personal account manager" ];
       pk_color := "purple"; pk_popular := false |} ].

(** The body of a purchase of the package [pk]: its [id], [name], [price]
    and [duration] under the names that the purchase route reads. *)
Definition order (pk : package) : purchase_body :=
  {| b_package_id := JS.Str (pk_id pk);
     b_package_name := JS.Str (pk_name pk);
     b_package_price := JS.Number (JS.Fin (inject_Z (pk_price pk)));
     b_package_duration := JS.Str (pk_duration pk);
     b_payment_method := JS.Undefined |}.

End PromotionPackages.

(* ------------------------------------------------------------------ *)
(** ** The submission of a sponsored post

    [POST /api/vlogger-posts]: the multer middleware [upload.single], the
    handler, and the application's error handler for what the middleware
    refuses. *)

Module VloggerPosts.

(** [req.file] of multer's memory storage. *)
Record file : Type := {
  originalname : string;
  mimetype : string;
  buffer : string
}.

Record submit_body : Type := {
  b_vendor_id : JS.value;
  b_post_title : JS.value;
  b_post_description : JS.value;
  b_post_url : JS.value;
  b_platform : JS.value
}.

(** The columns of [vlogger_posts] that a submission writes, with the id
    that the database assigns. *)
Record submitted : Type := {
  s_id : string;
  s_vlogger_id : string;
  s_vendor_id : JS.value;
  s_post_title : JS.value;
  s_post_description : JS.value;
  s_post_url : JS.value;
  s_screenshot_url : option string;
  s_platform : JS.value;
  s_status : string;
  s_submitted_at : Z
}.

(** An object of the bucket [media]. *)
Record stored_object : Type := {
  o_name : string;
  o_content : string;
  o_contentType : string
}.

Record store : Type := {
  posts : list submitted;
  media : list stored_object
}.

(** What multer hands to [next] instead of calling the handler. *)
Inductive multer_error : Type :=
| OnlyImages       (* [new Error('Only image files are allowed')] *)
| LimitFileSize.   (* the file is larger than [limits.fileSize] *)

Definition fileSize : Z := 5 * 1024 * 1024.

(** [file.mimetype.startsWith('image/')] *)
Definition fileFilter (f : file) : bool := prefix "image/" (mimetype f).

(** [upload.single('screenshot')]: the filter is asked before the file is
    read, the limit is met while it is read. *)
Definition upload_single (sent_file : option file)
  : multer_error + option file :=
  match sent_file with
  | None => inr None
  | Some f =>
      if negb (fileFilter f) then inl OnlyImages
      else if fileSize <? Z.of_nat (String.length (buffer f))
           then inl LimitFileSize
      else inr (Some f)
  end.

(** [supabase.storage.from('media').upload(name, content, { contentType,
    upsert: false })]: refused by the gateway, or because the name is
    taken. *)
Definition storage_upload (fault : option Supabase.error) (name : string)
  (content contentType : string) (bucket : list stored_object)
  : option Supabase.error * list stored_object :=
  match fault with
  | Some e => (Some e, bucket)
  | None =>
      if existsb (fun o => (o_name o =? name)%string) bucket
      then (Some Supabase.DuplicateKey, bucket)
      else (None, bucket ++ [ {| o_name := name; o_content := content;
                                 o_contentType := contentType |} ])
  end.

(** The environment of a submission: [Date.now()], the clock reading of
    [submitted_at], what the gateway does with the upload and the insert,
    and the public address that [getPublicUrl] gives for a name. *)
Record submit_env : Type := {
  date_now : Z;
  now_submitted : Z;
  upload_fault : option Supabase.error;
  getPublicUrl : string -> string;
  post_inserted : Supabase.error + string
}.

Inductive submit_response : Type :=
| Refused (code : Z) (m : message)   (* [{ success: false, message }] *)
| Created (post : submitted)         (* 201, [{ success: true, message, post }] *)
| Crashed (e : multer_error).        (* 500, by the application's error handler *)

Inductive printed : Type :=
| UploadError (e : Supabase.error)   (* ['Screenshot upload error:', uploadError] *)
| Stack (e : multer_error).          (* [err.stack] *)

Record submit_outcome : Type := {
  answered : submit_response;
  store_after : store;
  printed_lines : list printed
}.

(** [`vlogger-posts/${vloggerId}/${Date.now()}-${req.file.originalname}`] *)
Definition fileName (vloggerId : string) (env : submit_env) (f : file)
  : string :=
  ("vlogger-posts/" ++ vloggerId ++ "/"
   ++ NilZero.string_of_int (Z.to_int (date_now env)) ++ "-"
   ++ originalname f)%string.

(** The handler, from the insert on. *)
Definition insert_post (st : store) (bucket : list stored_object)
  (env : submit_env) (vloggerId : string) (b : submit_body)
  (screenshotUrl : option string) : submit_outcome :=
  let row i :=
    {| s_id := i;
       s_vlogger_id := vloggerId;
       s_vendor_id := b_vendor_id b;
       s_post_title := b_post_title b;
       s_post_description := JS.or_else (b_post_description b) JS.Null;
       s_post_url := b_post_url b;
       s_screenshot_url := screenshotUrl;
       s_platform := b_platform b;
       s_status := "pending";
       s_submitted_at := now_submitted env |} in
  match Supabase.insert (post_inserted env) s_id row (posts st) with
  | (inl insertError, _) =>
      {| answered := Refused 400 (ErrorMessage insertError);
         store_after := {| posts := posts st; media := bucket |};
         printed_lines := [] |}
  | (inr post, table) =>
      {| answered := Created post;
         store_after := {| posts := table; media := bucket |};
         printed_lines := [] |}
  end.

(** [POST /api/vlogger-posts] *)
Definition submit (st : store) (env : submit_env)
  (req : request submit_body) (sent_file : option file) : submit_outcome :=
  match upload_single sent_file with
  | inl e =>
      {| answered := Crashed e; store_after := st;
         printed_lines := [Stack e] |}
  | inr req_file =>
      let b := body req in
      match user_id_of req with
      | None =>
          {| answered := Refused 401 (Text "Authentication required");
             store_after := st; printed_lines := [] |}
      | Some vloggerId =>
          if negb (JS.truthy (b_vendor_id b))
             || negb (JS.truthy (b_post_title b))
             || negb (JS.truthy (b_post_url b))
             || negb (JS.truthy (b_platform b))
          then
            {| answered :=
                 Refused 400
                   (Text "Vendor, title, URL, and platform are required");
               store_after := st; printed_lines := [] |}
          else
            match req_file with
            | Some f =>
                let name := fileName vloggerId env f in
                match storage_upload (upload_fault env) name (buffer f)
                        (mimetype f) (media st) with
                | (Some uploadError, _) =>
                    {| answered :=
                         Refused 400 (Text "Failed to upload screenshot");
                       store_after := st;
                       printed_lines := [UploadError uploadError] |}
                | (None, bucket) =>
                    insert_post st bucket env vloggerId b
                      (Some (getPublicUrl env name))
                end
            | None => insert_post st (media st) env vloggerId b None
            end
      end
  end.

(** The four fields that a submission tests with [!]. *)
Definition required_fields (b : submit_body) : bool :=
  JS.truthy (b_vendor_id b) && JS.truthy (b_post_title b)
  && JS.truthy (b_post_url b) && JS.truthy (b_platform b).

End VloggerPosts.

(* ------------------------------------------------------------------ *)
(** ** The update of a vendor

    [PUT /api/vendors/:id], the statements that build the object given to
    [.update]. *)

Module Vendors.

(** A member of an object: a value of the request, or a time printed with
    [toISOString]. *)
Inductive member : Type :=
| Value (v : JS.value)
| Time (t : Z).

(** An object: its members by name, in the order they were added. *)
Definition object : Type := list (string * member).

(** [o[k]] *)
Fixpoint get (k : string) (o : object) : option member :=
  match o with
  | [] => None
  | (k', v) :: r => if (k' =? k)%string then Some v else get k r
  end.

(** [delete o[k]] *)
Definition delete (k : string) (o : object) : object :=
  filter (fun kv => negb (fst kv =? k)%string) o.

(** [{ ...o, [k]: v }]: a member that is there keeps its place. *)
Fixpoint set (k : string) (v : member) (o : object) : object :=
  match o with
  | [] => [(k, v)]
  | (k', v') :: r =>
      if (k' =? k)%string then (k, v) :: r else (k', v') :: set k v r
  end.

(** The argument of [.update]: [req.body] after the three [delete]s, with
    [updated_at]. *)
Definition updateData (req_body : object) (now : Z) : object :=
  set "updated_at" (Time now)
    (delete "rating" (delete "created_at" (delete "id" req_body))).

End Vendors.

(** States and requests of a submission. *)
Module Desk.

Import VloggerPosts.

Definition nothing : store := {| posts := []; media := [] |}.

Definition as_vlogger (v : string) (b : submit_body) : request submit_body :=
  {| req_user := Some {| user_id := Some v; role := Some "vlogger" |};
     params_id := ""; body := b |}.

Definition reel : submit_body :=
  {| b_vendor_id := JS.Str "v1"; b_post_title := JS.Str "Chaat trail";
     b_post_description := JS.Undefined;
     b_post_url := JS.Str "https://video.example/chaat";
     b_platform := JS.Str "YouTube" |}.

Definition untitled : submit_body :=
  {| b_vendor_id := JS.Str "v1"; b_post_title := JS.Str "";
     b_post_description := JS.Undefined;
     b_post_url := JS.Str "https://video.example/chaat";
     b_platform := JS.Str "YouTube" |}.

Definition shot : file :=
  {| originalname := "shot.png"; mimetype := "image/png";
     buffer := "PNG..." |}.

Definition notes : file :=
  {| originalname := "notes.pdf"; mimetype := "application/pdf";
     buffer := "%PDF" |}.

Definition bucket_url (name : string) : string :=
  ("https://project.example/storage/v1/object/public/media/" ++ name)%string.

(** The gateway runs the upload and the insert, the latter under the id
    [i]. *)
Definition going_through (i : string) : submit_env :=
  {| date_now := Sample.jan15; now_submitted := Sample.jan15;
     upload_fault := None; getPublicUrl := bucket_url;
     post_inserted := inr i |}.

(** The gateway runs the upload and refuses the insert. *)
Definition insert_refused : submit_env :=
  {| date_now := Sample.jan15; now_submitted := Sample.jan15;
     upload_fault := None; getPublicUrl := bucket_url;
     post_inserted := inl (Supabase.Refused "violates foreign key constraint") |}.

(** The gateway refuses the upload. *)
Definition upload_refused : submit_env :=
  {| date_now := Sample.jan15; now_submitted := Sample.jan15;
     upload_fault := Some (Supabase.Refused "Bucket not found");
     getPublicUrl := bucket_url; post_inserted := inr "post1" |}.


(** The body of a request that renames a vendor, claims to be featured and
    verified, and names an id and a rating of its own. *)
Definition takeover : Vendors.object :=
  [ ("id", Vendors.Value (JS.Str "v2"));
    ("name", Vendors.Value (JS.Str "Sharma Ji Ka Dhaba"));
    ("rating", Vendors.Value (JS.Number (JS.Fin 5)));
    ("is_featured", Vendors.Value (JS.Boolean true));
    ("verified", Vendors.Value (JS.Boolean true)) ].

End Desk.

(* ------------------------------------------------------------------ *)
(** * The promotion ledger *)

Section Tables.

Context {A : Type}.

Lemma filter_patch_length (f sel : A -> bool) (g : A -> A) (l : list A) :
  (forall x, f (g x) = false) ->
  (List.length (filter f (map (fun x => if sel x then g x else x) l))
   <= List.length (filter f l))%nat.
Proof.
  intros Hg. induction l as [|x l IH]; simpl; [lia|].
  destruct (sel x).
  - rewrite Hg. destruct (f x); simpl; lia.
  - destruct (f x); simpl; lia.
Qed.

Lemma single_data_none (l : list A) :
  Supabase.data (Supabase.single l) = None ->
  (List.length l <= 1)%nat -> l = [].
Proof.
  destruct l as [|x [|y l]]; simpl; intros H Hl;
    [reflexivity | discriminate | lia].
Qed.

Lemma single_data_some (l : list A) :
  (List.length l <= 1)%nat -> l <> [] ->
  exists r, Supabase.data (Supabase.single l) = Some r.
Proof.
  destruct l as [|x [|y l]]; simpl; intros Hl Hne;
    [congruence | eauto | lia].
Qed.

End Tables.

Lemma filter_nil {A : Type} (f : A -> bool) (l : list A) :
  (forall x, In x l -> f x = false) -> filter f l = [].
Proof.
  induction l as [|x l IH]; simpl; intros H; [reflexivity|].
  rewrite (H x (or_introl eq_refl)). apply IH. intros y Hy. apply H. now right.
Qed.

Lemma in_map_patch {A : Type} (sel : A -> bool) (g : A -> A) (l : list A)
  (y : A) :
  In y (map (fun x => if sel x then g x else x) l) ->
  (exists x, In x l /\ sel x = true /\ y = g x)
  \/ (In y l /\ sel y = false).
Proof.
  rewrite in_map_iff. intros (x & <- & Hin).
  destruct (sel x) eqn:Hs; [left; eauto | right; auto].
Qed.

Lemma in_patched {A : Type} (sel : A -> bool) (g : A -> A) (l : list A)
  (x : A) :
  In x l -> sel x = false ->
  In x (map (fun x => if sel x then g x else x) l).
Proof.
  intros Hin Hs. apply in_map_iff. exists x. now rewrite Hs.
Qed.

Lemma filter_patch_selected {A : Type} (sel : A -> bool) (g : A -> A)
  (l : list A) :
  (forall x, sel (g x) = sel x) ->
  filter sel (map (fun x => if sel x then g x else x) l)
  = map g (filter sel l).
Proof.
  intros Hg. induction l as [|x l IH]; simpl; [reflexivity|].
  destruct (sel x) eqn:Hx.
  - rewrite Hg, Hx. simpl. now rewrite IH.
  - rewrite Hx. exact IH.
Qed.

Lemma active_of_cancelled (v : string) (now : Z) (p : promotion) :
  active_of v (cancelled now p) = false.
Proof. unfold active_of; simpl. apply andb_false_r. Qed.

Lemma cancel_promotions (db : database) (env : cancel_env)
  (req : request unit) :
  vendor_promotions (db_after (cancel db env req)) = vendor_promotions db
  \/ exists sel : promotion -> bool,
       vendor_promotions (db_after (cancel db env req))
       = map (fun x : promotion =>
                if sel x then cancelled (now_cancelled env) x else x)
           (vendor_promotions db).
Proof.
  unfold cancel, Supabase.update_single, Supabase.update.
  destruct (user_id_of req) as [vendorId|]; [|now left].
  destruct (update_fault env); [now left|].
  destruct (filter (owned (params_id req) vendorId) (vendor_promotions db))
    as [|r [|r' l]]; [now left| |now left].
  right. exists (owned (params_id req) vendorId).
  destruct (unsync_fault env); reflexivity.
Qed.

Lemma cancel_one_active (db : database) (env : cancel_env)
  (req : request unit) :
  one_active db -> one_active (db_after (cancel db env req)).
Proof.
  intros Hdb v. unfold active_rows.
  destruct (cancel_promotions db env req) as [-> | [sel ->]].
  - apply Hdb.
  - etransitivity; [|apply (Hdb v)].
    apply filter_patch_length. intros x. apply active_of_cancelled.
Qed.

Lemma purchase_promotions (db : database) (env : purchase_env)
  (req : request purchase_body) :
  vendor_promotions (db_after (purchase db env req)) = vendor_promotions db
  \/ exists vendorId p,
       user_id_of req = Some vendorId
       /\ Supabase.data
            (Supabase.select_single (check_fault env) (active_of vendorId)
               (vendor_promotions db)) = None
       /\ vendor_id p = vendorId
       /\ vendor_promotions (db_after (purchase db env req))
          = vendor_promotions db ++ [p].
Proof.
  unfold purchase, purchase_ledger, Supabase.insert, Supabase.update.
  destruct (user_id_of req) as [vendorId|]; [|now left].
  destruct (_ || _); [now left|].
  destruct (Supabase.data _) eqn:Hcheck; [now left|].
  destruct (end_of _ _); [|now left].
  destruct (inserted env) as [e|i]; [now left|].
  destruct (existsb _ _); [now left|].
  right. eexists vendorId, _. repeat split; [exact Hcheck| |].
  2: destruct (sync_fault env); reflexivity.
  reflexivity.
Qed.

Lemma purchase_one_active (db : database) (env : purchase_env)
  (req : request purchase_body) :
  one_active db -> check_fault env = None ->
  one_active (db_after (purchase db env req)).
Proof.
  intros Hdb Hans v. unfold active_rows.
  destruct (purchase_promotions db env req)
    as [-> | (vendorId & p & _ & Hcheck & Hp & ->)]; [apply Hdb|].
  rewrite Hans in Hcheck. simpl in Hcheck.
  rewrite filter_app, length_app. simpl.
  unfold active_of at 2. rewrite Hp.
  destruct (String.eqb_spec vendorId v) as [->|Hv].
  - apply single_data_none in Hcheck; [|apply Hdb].
    rewrite Hcheck. destruct (_ && _); simpl; lia.
  - simpl. specialize (Hdb v). unfold active_rows in Hdb. lia.
Qed.

Lemma step_one_active (db : database) (op : operation) :
  one_active db -> check_answered op = true -> one_active (step db op).
Proof.
  destruct op as [env req | env req]; simpl; intros Hdb Hans.
  - apply purchase_one_active; [assumption|].
    destruct (check_fault env); [discriminate | reflexivity].
  - now apply cancel_one_active.
Qed.

Lemma run_one_active (ops : list operation) (db : database) :
  one_active db -> forallb check_answered ops = true ->
  one_active (run db ops).
Proof.
  revert db. induction ops as [|op ops IH]; simpl; intros db Hdb Hans.
  - exact Hdb.
  - apply andb_prop in Hans as [Hop Hops].
    apply IH; [now apply step_one_active | exact Hops].
Qed.

Lemma forallb_firstn {A : Type} (f : A -> bool) (n : nat) (l : list A) :
  forallb f l = true -> forallb f (firstn n l) = true.
Proof.
  revert n. induction l as [|x l IH]; intros [|n]; simpl; try reflexivity.
  intros H. apply andb_prop in H as [-> Hl]. simpl. now apply IH.
Qed.

Lemma purchase_conflict (db : database) (env : purchase_env)
  (req : request purchase_body) (vendorId : string) (existing : promotion) :
  user_id_of req = Some vendorId ->
  package_details (body req) = true ->
  Supabase.data
    (Supabase.select_single (check_fault env) (active_of vendorId)
       (vendor_promotions db)) = Some existing ->
  purchase db env req
  = fail db 400
      (Text "You already have an active promotion. Please wait for it to expire.").
Proof.
  intros Hu Hd Hcheck. unfold purchase, purchase_ledger.
  rewrite Hu. unfold package_details in Hd.
  apply andb_prop in Hd as [Hd H4]. apply andb_prop in Hd as [Hd H3].
  apply andb_prop in Hd as [H1 H2].
  rewrite H1, H2, H3, H4. simpl. rewrite Hcheck. reflexivity.
Qed.

(** With every check answered.  Start from a database in which no vendor
    has two active promotions and run purchases and cancellations one after
    the other, the gateway answering the check of every purchase from the
    table.  After any number [n] of them no vendor has two active
    promotions; and in that state a purchase by a vendor who has an active
    promotion, its check answered, is refused with status 400 (Conflict)
    and leaves the database as it is. *)
Theorem one_active_promotion_per_vendor
  (db : database) (ops : list operation) :
  one_active db ->
  forallb check_answered ops = true ->
  forall n : nat,
    let now := run db (firstn n ops) in
    one_active now
    /\ forall env req vendorId,
         user_id_of req = Some vendorId ->
         package_details (body req) = true ->
         check_fault env = None ->
         active_rows vendorId now <> [] ->
         purchase now env req
         = fail now 400
             (Text "You already have an active promotion. Please wait for it to expire.").
Proof.
  intros Hdb Hans n now.
  assert (Hnow : one_active now)
    by (apply run_one_active; [exact Hdb | now apply forallb_firstn]).
  split; [exact Hnow|].
  intros env req vendorId Hu Hd Hf Hne.
  destruct (single_data_some (active_rows vendorId now) (Hnow vendorId) Hne)
    as [existing He].
  apply purchase_conflict with (vendorId := vendorId) (existing := existing);
    try assumption.
  unfold Supabase.select_single. rewrite Hf. exact He.
Qed.

Lemma one_active_empty_ledger (db : database) :
  vendor_promotions db = [] -> one_active db.
Proof. intros H v. unfold active_rows. rewrite H. simpl. lia. Defined.

(** The vendor of [Sample.history] holds one active promotion after the
    first purchase, and the purchase of the day after is refused. *)
Lemma one_active_promotion_per_vendor_witness :
  let now := run Sample.market (firstn 1 Sample.history) in
  one_active now
  /\ purchase now (Sample.at_time (Sample.jan15 + 86400000) "p2")
       (Sample.as_vendor "v1" "" Sample.basic)
     = fail now 400
         (Text "You already have an active promotion. Please wait for it to expire.").
Proof.
  intros now.
  destruct (one_active_promotion_per_vendor Sample.market Sample.history
              (one_active_empty_ledger Sample.market eq_refl) eq_refl 1%nat)
    as [Hone Hconflict].
  split; [exact Hone|].
  apply (Hconflict _ _ "v1"); [reflexivity | reflexivity | reflexivity |].
  vm_compute. discriminate.
Defined.

(** C1, at a check that the gateway refuses.  The vendor "v1" buys
    "premium" on 2025-01-15 and "basic" on 2025-01-31, the second request
    with all its fields and a purchase like the first, except that the
    gateway refuses the query for the active promotion: the handler reads
    only [data] of the reply, both purchases are answered 201, and "v1"
    has two active promotions. *)
Theorem refused_check_leaves_two_active_promotions :
  let first := purchase Sample.market (Sample.at_time Sample.jan15 "p1")
                 (Sample.as_vendor "v1" "" Sample.premium) in
  let second := purchase (db_after first) Scenario.check_refused
                  (Sample.as_vendor "v1" "" Sample.basic) in
  code (sent first) = 201
  /\ code (sent second) = 201
  /\ db_after second = run Sample.market Scenario.double_buy
  /\ map id (active_rows "v1" (db_after second)) = ["p1"; "p2"]
  /\ ~ one_active (db_after second).
Proof.
  intros first second.
  assert (Hlen : List.length (active_rows "v1" (db_after second)) = 2%nat)
    by (vm_compute; reflexivity).
  split; [vm_compute; reflexivity|].
  split; [vm_compute; reflexivity|].
  split; [vm_compute; reflexivity|].
  split; [vm_compute; reflexivity|].
  intros Hone. specialize (Hone "v1"). rewrite Hlen in Hone. lia.
Qed.

(** ** Reading the ledger *)

Lemma in_insert_desc (p q : promotion) (ps : list promotion) :
  In q (insert_desc p ps) <-> q = p \/ In q ps.
Proof.
  induction ps as [|r ps IH]; simpl.
  - intuition.
  - destruct (created_at r <? created_at p); simpl; [intuition|].
    rewrite IH. intuition.
Qed.

Lemma in_order_desc (q : promotion) (ps : list promotion) :
  In q (order_desc ps) <-> In q ps.
Proof.
  induction ps as [|p ps IH]; simpl; [reflexivity|].
  rewrite in_insert_desc, IH. intuition.
Qed.

(** C2, as amended.  [GET /api/vendor-promotions], the gateway answering,
    replies 200 with the rows of the vendor exactly as they are stored, and
    writes nothing: a row is listed if and only if it is in the table with
    the vendor's id, so that a stored row whose status is active is listed
    as active whatever its end date. *)
Theorem get_promotions_lists_rows_as_stored
  (db : database) (req : request unit) (vendorId : string) :
  user_id_of req = Some vendorId ->
  let o := get_promotions db None req in
  code (sent o) = 200
  /\ db_after o = db
  /\ payload_of (sent o) = Promotions (listed o)
  /\ forall p,
       In p (listed o)
       <-> In p (vendor_promotions db) /\ vendor_id p = vendorId.
Proof.
  intros Hu. unfold get_promotions, listed. rewrite Hu. simpl.
  split; [reflexivity|]. split; [reflexivity|]. split; [reflexivity|].
  intros p. rewrite in_order_desc, filter_In, String.eqb_eq. reflexivity.
Qed.

(** On 2025-01-31 the promotion that ended on 2025-01-15 is listed, and
    listed with the status it is stored with. *)
Lemma get_promotions_lists_rows_as_stored_witness :
  In Sample.ended
    (listed (get_promotions Sample.stale None (Sample.as_vendor "v1" "" tt)))
  /\ status Sample.ended = "active"
  /\ end_date Sample.ended <= Sample.jan31.
Proof.
  destruct (get_promotions_lists_rows_as_stored Sample.stale
              (Sample.as_vendor "v1" "" tt) "v1" eq_refl)
    as (_ & _ & _ & Hlisted).
  split; [|split; [reflexivity | vm_compute; discriminate]].
  apply Hlisted. split; [left; reflexivity | reflexivity].
Defined.

(** C2, as stated, fails: on 2025-01-31 the vendor of [Sample.stale] is
    shown the promotion that ended on 2025-01-15 as active. *)
Lemma ended_promotion_listed_active :
  ~ lists_expired Sample.stale (Sample.as_vendor "v1" "" tt) Sample.jan31.
Proof.
  intros H.
  apply (H "v1" Sample.ended Sample.ended); try reflexivity.
  - left; reflexivity.
  - vm_compute; discriminate.
  - left; reflexivity.
Qed.

(** ** Calendar arithmetic *)

Section Calendar.

Import JSDate.

Lemma div_step (n x : Z) :
  0 < n ->
  (x + 1) / n = x / n + (if (x + 1) mod n =? 0 then 1 else 0).
Proof.
  intros Hn.
  pose proof (Z.div_mod x n ltac:(lia)) as Hx.
  pose proof (Z.mod_pos_bound x n Hn) as Bx.
  destruct (Z.eqb_spec ((x + 1) mod n) 0) as [H0|H0].
  - symmetry. apply (Z.div_unique (x + 1) n (x / n + 1) 0); [lia|].
    apply Z.mod_divide in H0; [|lia]. destruct H0 as [k Hk].
    assert (x mod n = n - 1).
    { assert (Hm : x mod n + 1 = (k - x / n) * n) by nia.
      assert (0 < k - x / n) by nia.
      assert (k - x / n < 2) by nia. nia. }
    nia.
  - rewrite Z.add_0_r.
    symmetry. apply (Z.div_unique (x + 1) n (x / n) (x mod n + 1)); [|lia].
    assert (x mod n + 1 <> n); [|lia].
    intros E. apply H0. replace (x + 1) with ((x / n + 1) * n) by nia.
    apply Z.mod_mul. lia.
Qed.


Lemma mod_shift (n k x : Z) : n <> 0 -> (x - k * n) mod n = x mod n.
Proof.
  intros Hn. replace (x - k * n) with (x + (- k) * n) by lia.
  now apply Z.mod_add.
Qed.

Lemma mod_100_4 y : y mod 100 = 0 -> y mod 4 = 0.
Proof. intros H. Z.to_euclidean_division_equations. lia. Qed.

Lemma mod_400_100 y : y mod 400 = 0 -> y mod 100 = 0.
Proof. intros H. Z.to_euclidean_division_equations. lia. Qed.

Lemma DayFromYear_succ y : DayFromYear (y + 1) = DayFromYear y + DaysInYear y.
Proof.
  unfold DayFromYear, DaysInYear.
  replace (y + 1 - 1969) with (y - 1969 + 1) by lia.
  replace (y + 1 - 1901) with (y - 1901 + 1) by lia.
  replace (y + 1 - 1601) with (y - 1601 + 1) by lia.
  rewrite (div_step 4), (div_step 100), (div_step 400) by lia.
  replace (y - 1969 + 1) with (y - 492 * 4) by lia.
  replace (y - 1901 + 1) with (y - 19 * 100) by lia.
  replace (y - 1601 + 1) with (y - 4 * 400) by lia.
  rewrite !mod_shift by lia.
  pose proof (mod_100_4 y). pose proof (mod_400_100 y).
  destruct (Z.eqb_spec (y mod 4) 0) as [H4|H4];
    destruct (Z.eqb_spec (y mod 100) 0) as [H100|H100];
    destruct (Z.eqb_spec (y mod 400) 0) as [H400|H400]; cbn [negb]; lia.
Qed.

Lemma DaysInYear_bounds y : 365 <= DaysInYear y <= 366.
Proof.
  unfold DaysInYear.
  destruct (negb _); [lia|]. destruct (negb _); [lia|].
  destruct (negb _); lia.
Qed.

Lemma DayFromYear_lt y1 y2 : y1 < y2 -> DayFromYear y1 < DayFromYear y2.
Proof.
  intros H. replace y2 with (y1 + 1 + Z.of_nat (Z.to_nat (y2 - y1 - 1))) by lia.
  induction (Z.to_nat (y2 - y1 - 1)) as [|k IH].
  - rewrite Z.add_0_r, DayFromYear_succ.
    pose proof (DaysInYear_bounds y1). lia.
  - rewrite Nat2Z.inj_succ.
    replace (y1 + 1 + Z.succ (Z.of_nat k)) with (y1 + 1 + Z.of_nat k + 1) by lia.
    rewrite DayFromYear_succ.
    pose proof (DaysInYear_bounds (y1 + 1 + Z.of_nat k)). lia.
Qed.

Lemma YearFromTime_spec t :
  DayFromYear (YearFromTime t) <= Day t < DayFromYear (YearFromTime t + 1).
Proof.
  unfold YearFromTime. set (d := Day t). clearbody d.
  set (y := 1970 + d * 400 / 146097).
  destruct (Z.ltb_spec d (DayFromYear y)).
  - split.
    + clear H. unfold y, DayFromYear. Z.to_euclidean_division_equations. lia.
    + replace (y - 1 + 1) with y by lia. assumption.
  - destruct (Z.leb_spec (DayFromYear (y + 1)) d).
    + split; [assumption|]. clear H H0.
      unfold y, DayFromYear. Z.to_euclidean_division_equations. lia.
    + split; assumption.
Qed.

Lemma YearFromTime_unique t y :
  DayFromYear y <= Day t < DayFromYear (y + 1) -> YearFromTime t = y.
Proof.
  intros H. pose proof (YearFromTime_spec t) as S.
  destruct (Z.lt_trichotomy (YearFromTime t) y) as [L|[E|G]]; [|exact E|].
  - assert (DayFromYear (YearFromTime t + 1) <= DayFromYear y).
    { destruct (Z.eq_dec (YearFromTime t + 1) y) as [->|]; [lia|].
      apply Z.lt_le_incl, DayFromYear_lt. lia. }
    lia.
  - assert (DayFromYear (y + 1) <= DayFromYear (YearFromTime t)).
    { destruct (Z.eq_dec (y + 1) (YearFromTime t)) as [->|]; [lia|].
      apply Z.lt_le_incl, DayFromYear_lt. lia. }
    lia.
Qed.

Lemma leap_days y :
  DaysInYear y = 365 + (if DaysInYear y =? 366 then 1 else 0).
Proof.
  pose proof (DaysInYear_bounds y).
  destruct (Z.eqb_spec (DaysInYear y) 366); lia.
Qed.

Lemma Day_MakeDate day time :
  0 <= time < msPerDay ->
  Day (MakeDate day time) = day /\ TimeWithinDay (MakeDate day time) = time.
Proof.
  intros H. unfold Day, TimeWithinDay, MakeDate. split.
  - symmetry. apply (Z.div_unique _ msPerDay day time); [lia|]. lia.
  - symmetry. apply (Z.mod_unique _ msPerDay day time); [lia|]. lia.
Qed.

Lemma TimeWithinDay_bounds t : 0 <= TimeWithinDay t < msPerDay.
Proof. apply Z.mod_pos_bound. reflexivity. Qed.

Ltac month_cases m H :=
  assert (m = 0 \/ m = 1 \/ m = 2 \/ m = 3 \/ m = 4 \/ m = 5 \/ m = 6
          \/ m = 7 \/ m = 8 \/ m = 9 \/ m = 10 \/ m = 11) as H by lia;
  repeat (destruct H as [H|H]); subst m.

Ltac month_chain :=
  repeat match goal with
         | |- context [?a <? ?b] => destruct (Z.ltb_spec a b); try lia
         end.

(** The day [date] (1 to 28) of month [month] (0 to 11) of [year] reads back
    as that year, month and date. *)
Lemma fields_of_day (t year month date : Z) :
  0 <= month <= 11 -> 1 <= date <= 28 ->
  Day t = MakeDay year month date ->
  YearFromTime t = year /\ MonthFromTime t = month /\ DateFromTime t = date.
Proof.
  intros Hm Hd HD. unfold MakeDay in HD.
  replace (month / 12) with 0 in HD
    by (symmetry; apply Z.div_small; lia).
  replace (month mod 12) with month in HD
    by (symmetry; apply Z.mod_small; lia).
  rewrite Z.add_0_r in HD.
  pose proof (leap_days year) as Hl.
  set (l := if DaysInYear year =? 366 then 1 else 0) in *.
  assert (Bl : 0 <= l <= 1) by (unfold l; destruct (_ =? _); lia).
  assert (Hy : YearFromTime t = year).
  { apply YearFromTime_unique. rewrite DayFromYear_succ, HD, Hl.
    month_cases month H; cbv beta iota delta [month_start]; lia. }
  assert (Hw : DayWithinYear t = month_start l month + date - 1)
    by (unfold DayWithinYear; rewrite Hy, HD; lia).
  assert (Hi : InLeapYear t = l) by (unfold InLeapYear; now rewrite Hy).
  assert (Hmo : MonthFromTime t = month).
  { unfold MonthFromTime. rewrite Hw, Hi.
    month_cases month H; cbv beta iota delta [month_start]; month_chain. }
  split; [exact Hy|]. split; [exact Hmo|].
  unfold DateFromTime. rewrite Hmo, Hw, Hi. lia.
Qed.

Lemma DateFromTime_pos t : 1 <= DateFromTime t.
Proof.
  pose proof (YearFromTime_spec t) as S.
  unfold DateFromTime, MonthFromTime.
  assert (0 <= DayWithinYear t) by (unfold DayWithinYear; lia).
  assert (0 <= InLeapYear t <= 1)
    by (unfold InLeapYear; destruct (_ =? _); lia).
  set (d := DayWithinYear t) in *. set (l := InLeapYear t) in *.
  month_chain; cbv beta iota delta [month_start]; lia.
Qed.

(** [setMonth] on a day that every month has: the date and the time of day
    are kept, and the month is [n] months after the one of [t]. *)
Lemma setMonth_keeps_day (tz t n t' : Z) :
  getDate tz t <= 28 ->
  setMonth tz t (getMonth tz t + n) = Some t' ->
  getDate tz t' = getDate tz t
  /\ 12 * getFullYear tz t' + getMonth tz t'
     = 12 * getFullYear tz t + getMonth tz t + n
  /\ TimeWithinDay (LocalTime tz t') = TimeWithinDay (LocalTime tz t).
Proof.
  unfold getDate, getMonth, getFullYear, setMonth, TimeClip, UTC.
  set (lt := LocalTime tz t). intros H28 Hset.
  destruct (_ <=? _) in Hset; [|discriminate].
  injection Hset as <-.
  set (m := MonthFromTime lt + n).
  set (D := MakeDay (YearFromTime lt) m (DateFromTime lt)).
  replace (LocalTime tz (MakeDate D (TimeWithinDay lt) - tz))
    with (MakeDate D (TimeWithinDay lt)) by (unfold LocalTime; lia).
  destruct (Day_MakeDate D (TimeWithinDay lt) (TimeWithinDay_bounds lt))
    as [HD HT].
  assert (HD' : Day (MakeDate D (TimeWithinDay lt))
                = MakeDay (YearFromTime lt + m / 12) (m mod 12)
                    (DateFromTime lt)).
  { rewrite HD. unfold D, MakeDay.
    pose proof (Z.mod_pos_bound m 12 ltac:(lia)).
    rewrite (Z.div_small (m mod 12) 12), (Z.mod_small (m mod 12) 12) by lia.
    rewrite Z.add_0_r. reflexivity. }
  apply fields_of_day in HD';
    [|pose proof (Z.mod_pos_bound m 12 ltac:(lia)); lia
     |pose proof (DateFromTime_pos lt); lia].
  destruct HD' as (-> & -> & ->).
  split; [reflexivity|]. split; [|exact HT].
  pose proof (Z.div_mod m 12 ltac:(lia)). unfold m in *. lia.
Qed.

End Calendar.

(** ** The end date of a purchase *)

(** The number of months that [end_of] adds for a duration. *)
Lemma end_of_months (env : purchase_env) (duration : JS.value) (n : Z) :
  (duration = JS.Str "1 Month" /\ n = 1)
  \/ (duration = JS.Str "3 Months" /\ n = 3)
  \/ (duration = JS.Str "6 Months" /\ n = 6) ->
  end_of env duration
  = JSDate.setMonth (tz env) (now_end env)
      (JSDate.getMonth (tz env) (now_end env) + n).
Proof.
  intros [[-> ->]|[[-> ->]|[-> ->]]]; reflexivity.
Qed.

(** What a purchase that went through has stored. *)
Lemma purchase_ledger_row (db : database) (env : purchase_env)
  (req : request purchase_body) (c : committed) :
  purchase_ledger db env req = inr c ->
  status (c_promotion c) = "active"
  /\ payment_status (c_promotion c) = "completed"
  /\ package_duration (c_promotion c) = b_package_duration (body req)
  /\ start_date (c_promotion c) = now_start env
  /\ end_of env (b_package_duration (body req))
     = Some (end_date (c_promotion c)).
Proof.
  unfold purchase_ledger, Supabase.insert.
  destruct (user_id_of req) as [vendorId|]; [|discriminate].
  destruct (_ || _); [discriminate|].
  destruct (Supabase.data _); [discriminate|].
  destruct (end_of _ _) as [endDate|]; [|discriminate].
  destruct (inserted env) as [e|i]; [discriminate|].
  destruct (existsb _ _); [discriminate|].
  intros [= <-]. repeat split.
Qed.

(** X1.  On a host whose zone is a fixed offset from UTC (no daylight
    saving: UTC, IST), a purchase for one of the three durations, on a day
    that every month has and with one clock reading for the start and the
    end: the promotion ends on the same day of the month, at the same time
    of day, [n] months after it starts. *)
Lemma purchase_end_on_same_day (db : database) (env : purchase_env)
  (req : request purchase_body) (c : committed) (n : Z) :
  purchase_ledger db env req = inr c ->
  (b_package_duration (body req) = JS.Str "1 Month" /\ n = 1)
  \/ (b_package_duration (body req) = JS.Str "3 Months" /\ n = 3)
  \/ (b_package_duration (body req) = JS.Str "6 Months" /\ n = 6) ->
  now_end env = now_start env ->
  JSDate.getDate (tz env) (now_start env) <= 28 ->
  let p := c_promotion c in
  JSDate.getDate (tz env) (end_date p)
  = JSDate.getDate (tz env) (start_date p)
  /\ 12 * JSDate.getFullYear (tz env) (end_date p)
     + JSDate.getMonth (tz env) (end_date p)
     = 12 * JSDate.getFullYear (tz env) (start_date p)
       + JSDate.getMonth (tz env) (start_date p) + n
  /\ JSDate.TimeWithinDay (JSDate.LocalTime (tz env) (end_date p))
     = JSDate.TimeWithinDay (JSDate.LocalTime (tz env) (start_date p)).
Proof.
  intros Hc Hn Hclock H28 p.
  destruct (purchase_ledger_row db env req c Hc) as (_ & _ & _ & Hs & He).
  rewrite (end_of_months env _ n Hn), Hclock in He.
  unfold p. rewrite Hs.
  now apply setMonth_keeps_day.
Qed.


(** C3, at a month's end.  A vendor who buys "1 Month" on 2025-01-31 at
    10:00 UTC gets a promotion that starts then and ends on 2025-03-03 at
    10:00 UTC: 31 days later, in the second month after the purchase. *)
Theorem purchase_at_month_end_runs_over :
  let o := purchase Sample.market (Sample.at_time Sample.jan31 "p1")
             (Sample.as_vendor "v1" "" Sample.basic) in
  match payload_of (sent o) with
  | Purchased p _ =>
      code (sent o) = 201
      /\ package_duration p = JS.Str "1 Month"
      /\ start_date p = Sample.jan31
      /\ (JSDate.getFullYear 0 (start_date p),
          JSDate.getMonth 0 (start_date p),
          JSDate.getDate 0 (start_date p)) = (2025, 0, 31)
      /\ (JSDate.getFullYear 0 (end_date p),
          JSDate.getMonth 0 (end_date p),
          JSDate.getDate 0 (end_date p)) = (2025, 2, 3)
      /\ end_date p - start_date p = 31 * JSDate.msPerDay
  | _ => False
  end.
Proof.
  vm_compute. repeat split.
Qed.

(** ** The validation of a purchase *)

(** C4, as amended.  A purchase by an authenticated vendor in which
    [package_id], [package_name], [package_price] or [package_duration] is
    missing or falsy is refused with status 400; nothing is written and
    nothing is printed. *)
Theorem purchase_requires_package_details
  (db : database) (env : purchase_env) (req : request purchase_body)
  (vendorId : string) :
  user_id_of req = Some vendorId ->
  package_details (body req) = false ->
  purchase db env req = fail db 400 (Text "Package details are required")
  /\ db_after (purchase db env req) = db.
Proof.
  intros Hu Hd.
  assert (H : purchase db env req
              = fail db 400 (Text "Package details are required")).
  { unfold purchase, purchase_ledger. rewrite Hu.
    unfold package_details in Hd.
    destruct (JS.truthy (b_package_id (body req))); [|reflexivity].
    destruct (JS.truthy (b_package_name (body req))); [|reflexivity].
    destruct (JS.truthy (b_package_price (body req))); [|reflexivity].
    destruct (JS.truthy (b_package_duration (body req)));
      [discriminate | reflexivity]. }
  split; [exact H | rewrite H; reflexivity].
Qed.

(** A price of 0 is falsy: the purchase is refused. *)
Lemma purchase_requires_package_details_witness :
  let req := Sample.as_vendor "v1" ""
               (Sample.package "basic" "Basic Boost"
                  (JS.Number (JS.Fin 0)) "1 Month") in
  purchase Sample.market (Sample.at_time Sample.jan15 "p1") req
  = fail Sample.market 400 (Text "Package details are required")
  /\ db_after (purchase Sample.market (Sample.at_time Sample.jan15 "p1") req)
     = Sample.market.
Proof.
  intros req.
  exact (purchase_requires_package_details Sample.market
           (Sample.at_time Sample.jan15 "p1") req "v1" eq_refl eq_refl).
Defined.

(** C4, as stated, fails: a purchase at the price of -5, and one for the
    duration "2 Weeks", are answered 201 and stored. *)
Lemma purchase_accepts_ill_formed_package :
  ~ refuses_ill_formed Sample.market (Sample.at_time Sample.jan15 "p1")
      (Sample.as_vendor "v1" ""
         (Sample.package "basic" "Basic Boost"
            (JS.Number (JS.Fin (-5))) "1 Month"))
  /\ ~ refuses_ill_formed Sample.market (Sample.at_time Sample.jan15 "p1")
         (Sample.as_vendor "v1" ""
            (Sample.package "basic" "Basic Boost"
               (JS.Number (JS.Fin 2999)) "2 Weeks")).
Proof.
  split; intros H.
  - destruct H as [Hcode _]; [left; reflexivity|].
    vm_compute in Hcode. discriminate.
  - destruct H as [Hcode _]; [right; reflexivity|].
    vm_compute in Hcode. discriminate.
Qed.

(** ** Cancellation *)

(** C6, as amended.  A cancellation by an authenticated vendor that reaches
    the table selects the rows with the given id and the vendor's id,
    whatever their status.  When there is none (no such promotion, or one of
    another vendor) it is refused with status 400 and the gateway's
    not-a-single-row error, and the database is as before.  When there is
    one, also one that is cancelled already, it succeeds with status 200:
    the promotion returned has the status "cancelled", the time of this
    request as [cancelled_at] and every other column as it was; it is the
    one row stored under that id and vendor, and the other rows of the
    ledger are as they were. *)
Theorem cancel_selects_by_id_and_owner
  (db : database) (env : cancel_env) (req : request unit)
  (vendorId : string) :
  user_id_of req = Some vendorId ->
  update_fault env = None ->
  ((forall p, In p (vendor_promotions db) ->
              owned (params_id req) vendorId p = false) ->
   cancel db env req = fail db 400 (ErrorMessage Supabase.NotSingleRow)
   /\ db_after (cancel db env req) = db)
  /\ (forall p,
        filter (owned (params_id req) vendorId) (vendor_promotions db) = [p] ->
        exists p',
          sent (cancel db env req)
          = {| code := 200; success := true;
               msg := Some (Text "Promotion cancelled successfully");
               payload_of := Promotion p' |}
          /\ status p' = "cancelled"
          /\ cancelled_at p' = Some (now_cancelled env)
          /\ bought_columns p' = bought_columns p
          /\ filter (owned (params_id req) vendorId)
               (vendor_promotions (db_after (cancel db env req))) = [p']
          /\ map id (vendor_promotions (db_after (cancel db env req)))
             = map id (vendor_promotions db)
          /\ forall q, In q (vendor_promotions db) ->
               owned (params_id req) vendorId q = false ->
               In q (vendor_promotions (db_after (cancel db env req)))).
Proof.
  intros Hu Hf. split.
  - intros Hnone. unfold cancel, Supabase.update_single. rewrite Hu, Hf.
    rewrite (filter_nil _ _ Hnone). split; reflexivity.
  - intros p Hone. exists (cancelled (now_cancelled env) p).
    assert (Ht : vendor_promotions (db_after (cancel db env req))
                 = map (fun x => if owned (params_id req) vendorId x
                                 then cancelled (now_cancelled env) x else x)
                     (vendor_promotions db)).
    { unfold cancel, Supabase.update_single, Supabase.update.
      rewrite Hu, Hf, Hone. destruct (unsync_fault env); reflexivity. }
    split.
    { unfold cancel, Supabase.update_single, Supabase.update.
      rewrite Hu, Hf, Hone. destruct (unsync_fault env); reflexivity. }
    split; [reflexivity|]. split; [reflexivity|]. split; [reflexivity|].
    rewrite Ht. split; [|split].
    + rewrite filter_patch_selected by reflexivity. now rewrite Hone.
    + rewrite map_map. apply map_ext. intros x.
      destruct (owned (params_id req) vendorId x); reflexivity.
    + intros q Hin Hq. now apply in_patched.
Qed.

(** [Sample.history] leaves the promotion "p1" of vendor "v1" cancelled:
    "v2" cannot cancel it, and "v1" cancels it again, a day later. *)
Lemma cancel_selects_by_id_and_owner_witness :
  let db := Sample.after_history in
  let env := Sample.cancel_at (Sample.jan15 + 3 * 86400000) in
  cancel db env (Sample.as_vendor "v2" "p1" tt)
  = fail db 400 (ErrorMessage Supabase.NotSingleRow)
  /\ exists p',
       payload_of (sent (cancel db env (Sample.as_vendor "v1" "p1" tt)))
       = Promotion p'
       /\ status p' = "cancelled"
       /\ cancelled_at p' = Some (Sample.jan15 + 3 * 86400000).
Proof.
  intros db env. split.
  - apply (cancel_selects_by_id_and_owner db env
             (Sample.as_vendor "v2" "p1" tt) "v2" eq_refl eq_refl).
    intros p [<-|[]]. reflexivity.
  - destruct (cancel_selects_by_id_and_owner db env
                (Sample.as_vendor "v1" "p1" tt) "v1" eq_refl eq_refl)
      as [_ Hone].
    destruct (Hone (cancelled (Sample.jan15 + 2 * 86400000) Sample.bought)
                eq_refl) as (p' & Hsent & Hs & Hc & _).
    exists p'. rewrite Hsent. repeat split; assumption.
Defined.

(** The sample states are the ones [Sample.history] goes through. *)
Lemma history_states :
  run Sample.market (firstn 1 Sample.history) = Sample.after_purchase
  /\ run Sample.market Sample.history = Sample.after_history.
Proof. split; vm_compute; reflexivity. Qed.

(** C6, as stated, fails, in the state that [Sample.history] leaves: the
    cancelled promotion "p1" is cancelled once more, with success, and its
    row is written again; and the cancellation of "p1" by another vendor,
    who does not own it, is answered with status 400, not 404. *)
Lemma cancelled_promotion_cancelled_again :
  ~ refuses_cancelled Sample.after_history
      (Sample.cancel_at (Sample.jan15 + 3 * 86400000))
      (Sample.as_vendor "v1" "p1" tt)
  /\ ~ reports_not_found Sample.after_history
        (Sample.cancel_at (Sample.jan15 + 3 * 86400000))
        (Sample.as_vendor "v2" "p1" tt).
Proof.
  split; intros H.
  - destruct (H "v1" (cancelled (Sample.jan15 + 2 * 86400000) Sample.bought))
      as [Hs _]; try reflexivity.
    + left; reflexivity.
    + vm_compute in Hs. discriminate.
  - destruct (H "v2" eq_refl) as [Hcode _].
    + intros p [<-|[]]. reflexivity.
    + vm_compute in Hcode. discriminate.
Qed.

(** ** The update of the vendor's featured state *)

Lemma purchase_ledger_syncing (db : database) (env : purchase_env)
  (req : request purchase_body) (f : option Supabase.error) :
  purchase_ledger db (syncing f env) req = purchase_ledger db env req.
Proof. reflexivity. Qed.

Lemma with_vendors_same (db : database) : with_vendors db (vendors db) = db.
Proof. destruct db; reflexivity. Qed.

(** C8.  When the insert of a purchase went through, or the update of a
    cancellation, and the gateway then refuses the update of [vendors] with
    an error [e]: the response is the one sent when that update goes
    through, 201 with the stored promotion and the payment id for a
    purchase and 200 with the cancelled promotion for a cancellation; the
    ledger keeps the write, [vendors] is as it was, and the error is
    printed. *)
Theorem sync_failure_is_swallowed
  (pdb : database) (penv : purchase_env) (preq : request purchase_body)
  (c : committed)
  (cdb : database) (cenv : cancel_env) (creq : request unit)
  (vendorId : string) (p : promotion) (table : list promotion)
  (e : Supabase.error) :
  purchase_ledger pdb penv preq = inr c ->
  user_id_of creq = Some vendorId ->
  Supabase.update_single (update_fault cenv) (owned (params_id creq) vendorId)
    (cancelled (now_cancelled cenv)) (vendor_promotions cdb)
  = (inr p, table) ->
  (let o := purchase pdb (syncing (Some e) penv) preq in
   sent o = sent (purchase pdb (syncing None penv) preq)
   /\ sent o = {| code := 201; success := true;
                  msg := Some (Text "Promotion purchased successfully!");
                  payload_of := Purchased (c_promotion c) (c_payment c) |}
   /\ db_after o = c_db c
   /\ log o = [sync_line e])
  /\ (let o := cancel cdb (unsyncing (Some e) cenv) creq in
      sent o = sent (cancel cdb (unsyncing None cenv) creq)
      /\ sent o = {| code := 200; success := true;
                     msg := Some (Text "Promotion cancelled successfully");
                     payload_of := Promotion p |}
      /\ db_after o = with_promotions cdb table
      /\ log o = [sync_line e]).
Proof.
  intros Hp Hu Hc. split.
  - unfold purchase. rewrite !purchase_ledger_syncing, Hp. simpl.
    repeat split. apply with_vendors_same.
  - unfold cancel. rewrite Hu. simpl. rewrite Hc. simpl.
    repeat split.
Qed.

(** The first purchase of [Sample.history] and the cancellation of what
    it bought, the update of the vendor's row refused. *)
Lemma sync_failure_is_swallowed_witness :
  let e := Supabase.Refused "connection reset" in
  code (sent (purchase Sample.market
                (syncing (Some e) (Sample.at_time Sample.jan15 "p1"))
                (Sample.as_vendor "v1" "" Sample.premium))) = 201
  /\ log (cancel Sample.after_purchase
            (unsyncing (Some e) (Sample.cancel_at Sample.jan31))
            (Sample.as_vendor "v1" "p1" tt)) = [sync_line e].
Proof.
  intros e.
  assert (Hp : purchase_ledger Sample.market
                 (Sample.at_time Sample.jan15 "p1")
                 (Sample.as_vendor "v1" "" Sample.premium)
               = inr {| c_vendor := "v1"; c_promotion := Sample.bought;
                        c_payment := "pay_4fzyo82mv";
                        c_end := 1744711200000;
                        c_db := with_promotions Sample.market
                                  [Sample.bought] |})
    by (vm_compute; reflexivity).
  destruct (sync_failure_is_swallowed _ _ _ _
              Sample.after_purchase (Sample.cancel_at Sample.jan31)
              (Sample.as_vendor "v1" "p1" tt)
              "v1" (cancelled Sample.jan31 Sample.bought)
              [cancelled Sample.jan31 Sample.bought] e Hp eq_refl eq_refl)
    as [(_ & Hsent & _) (_ & _ & _ & Hlog)].
  split; [rewrite Hsent; reflexivity | exact Hlog].
Defined.

(* ------------------------------------------------------------------ *)
(** * The moderation queue *)

Lemma decision_rejected : decision (JS.Str "rejected") = Some "rejected".
Proof. reflexivity. Qed.

Lemma decision_approved : decision (JS.Str "approved") = Some "approved".
Proof. reflexivity. Qed.

Lemma decision_none (v : JS.value) :
  v <> JS.Str "approved" -> v <> JS.Str "rejected" -> decision v = None.
Proof.
  intros Ha Hr. unfold decision, JS.includes. simpl.
  destruct v as [| |b|x|s|]; simpl; try reflexivity.
  destruct (String.eqb_spec s "approved") as [->|_]; [congruence|].
  destruct (String.eqb_spec s "rejected") as [->|_]; [congruence|].
  reflexivity.
Qed.

Lemma map_patch_payout (sel : post -> bool) (u : update_data)
  (ps : list post) :
  u_payout_amount u = None ->
  map payout_amount (map (fun x => if sel x then apply u x else x) ps)
  = map payout_amount ps.
Proof.
  intros Hu. rewrite map_map. apply map_ext. intros x.
  destruct (sel x); [|reflexivity]. unfold apply; simpl. now rewrite Hu.
Qed.

Lemma filter_single_in {A : Type} (f : A -> bool) (l : list A) (x : A) :
  filter f l = [x] -> In x l /\ f x = true.
Proof.
  intros H. apply filter_In. rewrite H. now left.
Qed.

(** C5.  A review whose [status] is neither the string "approved" nor the
    string "rejected" leaves the database as it is and prints nothing; sent
    by an admin, it is refused with status 400 (InvalidArgument). *)
Theorem review_refuses_other_decisions
  (db : database) (env : review_env) (req : request review_body) :
  b_status (body req) <> JS.Str "approved" ->
  b_status (body req) <> JS.Str "rejected" ->
  db_after (review db env req) = db
  /\ log (review db env req) = []
  /\ (not_admin req = false ->
      review db env req
      = fail db 400 (Text "Status must be approved or rejected")).
Proof.
  intros Ha Hr. unfold review. rewrite (decision_none _ Ha Hr).
  destruct (not_admin req); repeat split; intros; congruence.
Qed.

(** The admin "a2" sends the decision "maybe" on the pending post. *)
Lemma review_refuses_other_decisions_witness :
  let req := Sample.as_admin "a2" "post2"
               (Sample.verdict (JS.Str "maybe") JS.Undefined
                  (JS.Number (JS.Fin 500))) in
  review Sample.queue (Sample.review_at Sample.jan31) req
  = fail Sample.queue 400 (Text "Status must be approved or rejected").
Proof.
  intros req.
  destruct (review_refuses_other_decisions Sample.queue
              (Sample.review_at Sample.jan31) req)
    as (_ & _ & H).
  - discriminate.
  - discriminate.
  - apply H. reflexivity.
Defined.




(** C9, as amended.  For a review with the decision "rejected", whatever
    [payout_amount] the request carries: [updateData] has no
    [payout_amount], the column [payout_amount] of the table is after the
    review what it was before, and the post returned has the
    [payout_amount] of the stored post it was made from: none when that
    had none, and the payout of an earlier approval when it had one. *)
Theorem rejected_review_writes_no_payout
  (db : database) (env : review_env) (req : request review_body) :
  b_status (body req) = JS.Str "rejected" ->
  u_payout_amount (updateData env req "rejected") = None
  /\ map payout_amount (vlogger_posts (db_after (review db env req)))
     = map payout_amount (vlogger_posts db)
  /\ forall p',
       payload_of (sent (review db env req)) = Post p' ->
       exists p,
         In p (vlogger_posts db) /\ reviewed req p = true
         /\ post_status p' = "rejected"
         /\ payout_amount p' = payout_amount p.
Proof.
  intros Hs. split; [reflexivity|].
  unfold review, Supabase.update_single. rewrite Hs, decision_rejected.
  destruct (not_admin req); [split; [reflexivity | discriminate]|].
  destruct (review_fault env); [split; [reflexivity | discriminate]|].
  destruct (filter (reviewed req) (vlogger_posts db)) as [|p [|q l]] eqn:Hone;
    try (split; [reflexivity | discriminate]).
  split.
  - simpl. now apply map_patch_payout.
  - simpl. intros p' [= <-]. exists p.
    destruct (filter_single_in _ _ _ Hone) as [Hin Hsel].
    repeat split; assumption.
Qed.

(** The pending post is rejected with a payout of 500 in the request. *)
Lemma rejected_review_writes_no_payout_witness :
  let req := Sample.as_admin "a2" "post2"
               (Sample.verdict (JS.Str "rejected") (JS.Str "off topic")
                  (JS.Number (JS.Fin 500))) in
  map payout_amount
    (vlogger_posts
       (db_after (review Sample.queue (Sample.review_at Sample.jan31) req)))
  = [Some (JS.Fin 500); None].
Proof.
  intros req.
  destruct (rejected_review_writes_no_payout Sample.queue
              (Sample.review_at Sample.jan31) req eq_refl)
    as (_ & Hcolumn & _).
  rewrite Hcolumn. reflexivity.
Defined.

(** C9, as stated, fails: the post of [Sample.queue] that was approved
    with a payout of 500 is rejected, the request carrying a payout of 750;
    the post returned is rejected and has the payout 500. *)
Lemma rejected_post_keeps_payout :
  ~ rejection_leaves_no_payout Sample.queue (Sample.review_at Sample.jan31)
      (Sample.as_admin "a2" "post1"
         (Sample.verdict (JS.Str "rejected") JS.Undefined
            (JS.Number (JS.Fin 750)))).
Proof.
  intros H.
  assert (Hp : payload_of
                 (sent (review Sample.queue (Sample.review_at Sample.jan31)
                          (Sample.as_admin "a2" "post1"
                             (Sample.verdict (JS.Str "rejected") JS.Undefined
                                (JS.Number (JS.Fin 750))))))
               = Post {| post_id := "post1"; post_status := "rejected";
                         admin_notes := JS.Null;
                         payout_amount := Some (JS.Fin 500);
                         reviewed_at := Some Sample.jan31;
                         reviewed_by := Some "a2" |})
    by (vm_compute; reflexivity).
  discriminate (H eq_refl _ Hp).
Qed.

(** C10.  For a review by an admin with the decision "approved" and a
    [payout_amount] that is absent, 0 or otherwise falsy: [updateData] has
    no [payout_amount] and the handler does what it does for the request
    without [payout_amount]; when the gateway runs the update on the one
    post with the given id, the review succeeds with status 200 and the
    post is stored and returned as approved, its [payout_amount] the one it
    had. *)
Theorem approval_without_payout
  (db : database) (env : review_env) (req : request review_body) :
  not_admin req = false ->
  b_status (body req) = JS.Str "approved" ->
  JS.truthy (b_payout_amount (body req)) = false ->
  u_payout_amount (updateData env req "approved") = None
  /\ review db env req = review db env (without_payout req)
  /\ forall p,
       review_fault env = None ->
       filter (reviewed req) (vlogger_posts db) = [p] ->
       let p' := apply (updateData env req "approved") p in
       review db env req
       = {| sent := {| code := 200; success := true;
                       msg := Some (Text "Post approved successfully");
                       payload_of := Post p' |};
            db_after :=
              with_posts db
                (map (fun x => if reviewed req x then p' else x)
                   (vlogger_posts db));
            log := [] |}
       /\ post_status p' = "approved"
       /\ payout_amount p' = payout_amount p.
Proof.
  intros Hadmin Hs Hfalsy.
  assert (Hu : updateData env req "approved"
               = updateData env (without_payout req) "approved").
  { unfold updateData. simpl. rewrite Hfalsy. reflexivity. }
  split; [unfold updateData; simpl; now rewrite Hfalsy|].
  split.
  - unfold review. simpl. rewrite Hs, decision_approved.
    change (not_admin (without_payout req)) with (not_admin req).
    change (reviewed (without_payout req)) with (reviewed req).
    rewrite Hu. reflexivity.
  - intros p Hf Hone p'.
    assert (Hp : payout_amount p' = payout_amount p).
    { unfold p', apply, updateData. simpl. now rewrite Hfalsy. }
    split; [|split; [reflexivity | exact Hp]].
    unfold review, Supabase.update_single.
    rewrite Hadmin, Hs, decision_approved, Hf, Hone.
    f_equal. f_equal. apply map_ext_in. intros x Hx.
    destruct (reviewed req x) eqn:Hsel; [|reflexivity].
    assert (Hin : In x (filter (reviewed req) (vlogger_posts db)))
      by (apply filter_In; split; assumption).
    rewrite Hone in Hin. destruct Hin as [<-|[]]. reflexivity.
Qed.

(** The pending post is approved with a payout of 0. *)
Lemma approval_without_payout_witness :
  let req := Sample.as_admin "a2" "post2"
               (Sample.verdict (JS.Str "approved") JS.Undefined
                  (JS.Number (JS.Fin 0))) in
  let o := review Sample.queue (Sample.review_at Sample.jan31) req in
  code (sent o) = 200
  /\ map payout_amount (vlogger_posts (db_after o))
     = [Some (JS.Fin 500); None].
Proof.
  intros req o.
  destruct (approval_without_payout Sample.queue
              (Sample.review_at Sample.jan31) req eq_refl eq_refl eq_refl)
    as (_ & _ & Hone).
  destruct (Hone Sample.pending_post eq_refl eq_refl) as (Ho & _ & _).
  unfold o. rewrite Ho. split; reflexivity.
Defined.

(* ------------------------------------------------------------------ *)
(** * Further properties of the promotion ledger *)

Lemma package_details_tested (b : purchase_body) :
  negb (JS.truthy (b_package_id b)) || negb (JS.truthy (b_package_name b))
  || negb (JS.truthy (b_package_price b))
  || negb (JS.truthy (b_package_duration b))
  = negb (package_details b).
Proof.
  unfold package_details.
  destruct (JS.truthy (b_package_id b)), (JS.truthy (b_package_name b)),
    (JS.truthy (b_package_price b)), (JS.truthy (b_package_duration b));
    reflexivity.
Qed.

(** What a purchase that stored its promotion went through. *)
Lemma purchase_ledger_commit (db : database) (env : purchase_env)
  (req : request purchase_body) (c : committed) :
  purchase_ledger db env req = inr c ->
  exists vendorId endDate i,
    user_id_of req = Some vendorId
    /\ package_details (body req) = true
    /\ Supabase.data
         (Supabase.select_single (check_fault env) (active_of vendorId)
            (vendor_promotions db)) = None
    /\ end_of env (b_package_duration (body req)) = Some endDate
    /\ inserted env = inr i
    /\ existsb (fun r => (id r =? i)%string) (vendor_promotions db) = false
    /\ c = {| c_vendor := vendorId;
              c_promotion := purchased_row vendorId env (body req) endDate i;
              c_payment := ("pay_" ++ substring 2 9 (random36 env))%string;
              c_end := endDate;
              c_db := with_promotions db
                        (vendor_promotions db
                         ++ [purchased_row vendorId env (body req) endDate i])
           |}.
Proof.
  unfold purchase_ledger, Supabase.insert.
  destruct (user_id_of req) as [vendorId|]; [|discriminate].
  rewrite package_details_tested.
  destruct (package_details (body req)); [|discriminate]. simpl negb.
  cbv iota.
  destruct (Supabase.data _) eqn:Hcheck; [discriminate|].
  destruct (end_of _ _) as [endDate|]; [|discriminate].
  destruct (inserted env) as [e|i]; [discriminate|].
  destruct (existsb _ _) eqn:Hfresh; [discriminate|].
  intros [= <-]. exists vendorId, endDate, i. repeat split; assumption.
Qed.


Lemma includes_durations_false (v : JS.value) :
  JS.includes ["1 Month"; "3 Months"; "6 Months"] v = false ->
  JS.is_string v "1 Month" = false
  /\ JS.is_string v "3 Months" = false
  /\ JS.is_string v "6 Months" = false.
Proof.
  unfold JS.includes. simpl.
  destruct (JS.is_string v "1 Month"), (JS.is_string v "3 Months"),
    (JS.is_string v "6 Months"); simpl; intros H;
    try discriminate; repeat split.
Qed.

(** The first purchase of [Sample.history], on the 15th of January: the
    promotion ends on the 15th of April. *)
Lemma purchase_end_on_same_day_witness :
  JSDate.getDate 0 (end_date Sample.bought)
  = JSDate.getDate 0 (start_date Sample.bought)
  /\ 12 * JSDate.getFullYear 0 (end_date Sample.bought)
     + JSDate.getMonth 0 (end_date Sample.bought)
     = 12 * JSDate.getFullYear 0 (start_date Sample.bought)
       + JSDate.getMonth 0 (start_date Sample.bought) + 3.
Proof.
  assert (Hc : purchase_ledger Sample.market
                 (Sample.at_time Sample.jan15 "p1")
                 (Sample.as_vendor "v1" "" Sample.premium)
               = inr {| c_vendor := "v1"; c_promotion := Sample.bought;
                        c_payment := "pay_4fzyo82mv";
                        c_end := 1744711200000;
                        c_db := with_promotions Sample.market
                                  [Sample.bought] |})
    by (vm_compute; reflexivity).
  assert (H28 : JSDate.getDate 0 Sample.jan15 <= 28)
    by (vm_compute; discriminate).
  destruct (purchase_end_on_same_day _ _ _ _ 3 Hc
              (or_intror (or_introl (conj eq_refl eq_refl))) eq_refl H28)
    as (Hd & Hm & _).
  split; [exact Hd | exact Hm].
Defined.

(** X2.  A purchase that is stored with a duration other than the three strings
    gets the clock reading of [endDate] as its end date: the promotion ends
    when it starts. *)
Theorem purchase_other_duration_ends_at_once
  (db : database) (env : purchase_env) (req : request purchase_body)
  (c : committed) :
  purchase_ledger db env req = inr c ->
  JS.includes ["1 Month"; "3 Months"; "6 Months"]
    (b_package_duration (body req)) = false ->
  end_date (c_promotion c) = now_end env
  /\ start_date (c_promotion c) = now_start env
  /\ status (c_promotion c) = "active".
Proof.
  intros Hc Hd.
  destruct (purchase_ledger_commit _ _ _ _ Hc)
    as (vendorId & endDate & i & _ & _ & _ & He & _ & _ & ->).
  destruct (includes_durations_false _ Hd) as (H1 & H3 & H6).
  unfold end_of in He. rewrite H1, H3, H6 in He.
  injection He as <-. repeat split.
Qed.

Lemma purchase_other_duration_ends_at_once_witness :
  exists c,
    purchase_ledger Sample.market (Sample.at_time Sample.jan15 "p1")
      (Sample.as_vendor "v1" "" Scenario.two_weeks) = inr c
    /\ end_date (c_promotion c) = Sample.jan15
    /\ start_date (c_promotion c) = Sample.jan15.
Proof.
  eexists. split; [vm_compute; reflexivity|].
  destruct (purchase_other_duration_ends_at_once Sample.market
              (Sample.at_time Sample.jan15 "p1")
              (Sample.as_vendor "v1" "" Scenario.two_weeks) _ eq_refl eq_refl)
    as (He & Hs & _).
  split; [exact He | exact Hs].
Defined.

(** ** The vendor's featured state *)

(** X3.  After a purchase that is stored, the update of [vendors] going
    through: every row of the vendor is featured with the package and until
    the end date of the promotion just stored, the rows of the other
    vendors are as they were, and no row is added or removed (a vendor with
    no row in [vendors] is featured nowhere, and the purchase is answered
    201 all the same). *)
Theorem purchase_features_vendor
  (db : database) (env : purchase_env) (req : request purchase_body)
  (c : committed) :
  purchase_ledger db env req = inr c ->
  sync_fault env = None ->
  let o := purchase db env req in
  let p := c_promotion c in
  code (sent o) = 201
  /\ log o = []
  /\ map v_id (vendors (db_after o)) = map v_id (vendors db)
  /\ (forall v, In v (vendors (db_after o)) -> v_id v = vendor_id p ->
        is_featured v = true
        /\ promotion_tier v = package_id p
        /\ featured_until v = Some (end_date p)
        /\ updated_at v = Some (now_updated env))
  /\ (forall v, In v (vendors db) -> v_id v <> vendor_id p ->
        In v (vendors (db_after o))).
Proof.
  intros Hc Hs o p. unfold o, p, purchase. rewrite Hc.
  destruct (purchase_ledger_commit _ _ _ _ Hc)
    as (vendorId & endDate & i & _ & _ & _ & _ & _ & _ & ->).
  unfold Supabase.update. rewrite Hs. simpl.
  split; [reflexivity|]. split; [reflexivity|]. split; [|split].
  - rewrite map_map. apply map_ext. intros v.
    destruct (v_id v =? vendorId)%string; reflexivity.
  - intros v Hin Hv. apply in_map_patch in Hin as [(x & _ & _ & ->)|[_ Hn]].
    + repeat split.
    + apply String.eqb_neq in Hn. contradiction.
  - intros v Hin Hv. apply in_patched; [exact Hin|].
    now apply String.eqb_neq.
Qed.

(** The first purchase of [Sample.history]: answered 201, and the one row
    of [vendors] is still the row of "v1". *)
Lemma purchase_features_vendor_witness :
  let o := purchase Sample.market (Sample.at_time Sample.jan15 "p1")
             (Sample.as_vendor "v1" "" Sample.premium) in
  code (sent o) = 201 /\ map v_id (vendors (db_after o)) = ["v1"].
Proof.
  intros o.
  assert (Hc : purchase_ledger Sample.market
                 (Sample.at_time Sample.jan15 "p1")
                 (Sample.as_vendor "v1" "" Sample.premium)
               = inr {| c_vendor := "v1"; c_promotion := Sample.bought;
                        c_payment := "pay_4fzyo82mv";
                        c_end := 1744711200000;
                        c_db := with_promotions Sample.market
                                  [Sample.bought] |})
    by (vm_compute; reflexivity).
  destruct (purchase_features_vendor _ _ _ _ Hc eq_refl)
    as (Hcode & _ & Hids & _).
  split; [exact Hcode | exact Hids].
Defined.

(** X4.  After a cancellation that is answered with success, the update of
    [vendors] going through: every row of the calling vendor is no longer
    featured, whichever promotion was cancelled, while every promotion with
    another id is in the ledger as it was, an active one still active; the
    rows of the other vendors are as they were. *)
Theorem cancel_unfeatures_vendor
  (db : database) (env : cancel_env) (req : request unit)
  (vendorId : string) :
  user_id_of req = Some vendorId ->
  success (sent (cancel db env req)) = true ->
  unsync_fault env = None ->
  let o := cancel db env req in
  (forall v, In v (vendors (db_after o)) -> v_id v = vendorId ->
     is_featured v = false
     /\ promotion_tier v = JS.Null
     /\ featured_until v = None)
  /\ (forall v, In v (vendors db) -> v_id v <> vendorId ->
        In v (vendors (db_after o)))
  /\ (forall p, In p (vendor_promotions db) -> id p <> params_id req ->
        In p (vendor_promotions (db_after o))).
Proof.
  intros Hu Hok Hs o. unfold o in *. clear o. revert Hok.
  unfold cancel, Supabase.update_single, Supabase.update.
  rewrite Hu, Hs.
  destruct (update_fault env); [discriminate|].
  destruct (filter (owned (params_id req) vendorId) (vendor_promotions db))
    as [|r [|r' l]]; try discriminate.
  intros _. simpl. split; [|split].
  - intros v Hin Hv. apply in_map_patch in Hin as [(x & _ & _ & ->)|[_ Hn]].
    + repeat split.
    + apply String.eqb_neq in Hn. contradiction.
  - intros v Hin Hv. apply in_patched; [exact Hin|].
    now apply String.eqb_neq.
  - intros p Hin Hp. apply in_patched; [exact Hin|].
    unfold owned. apply andb_false_iff. left. now apply String.eqb_neq.
Qed.

(** In the state that [Scenario.rebuy] leaves, the vendor holds the active
    promotion "p2" and cancels the cancelled "p1" once more: the vendor is
    no longer featured and "p2" is still active. *)
Lemma cancel_unfeatures_vendor_witness :
  let o := cancel Scenario.after_rebuy
             (Sample.cancel_at (Sample.jan15 + 3 * 86400000))
             (Sample.as_vendor "v1" "p1" tt) in
  In Scenario.rebought (vendor_promotions (db_after o))
  /\ status Scenario.rebought = "active"
  /\ Forall (fun v => is_featured v = false) (vendors (db_after o)).
Proof.
  intros o.
  destruct (cancel_unfeatures_vendor Scenario.after_rebuy
              (Sample.cancel_at (Sample.jan15 + 3 * 86400000))
              (Sample.as_vendor "v1" "p1" tt) "v1" eq_refl eq_refl eq_refl)
    as (Hv & _ & Hp).
  split; [|split; [reflexivity|]].
  - apply Hp; [right; left; reflexivity | discriminate].
  - apply Forall_forall. intros v Hin. apply Hv; [exact Hin|].
    vm_compute in Hin. destruct Hin as [<-|[]]. reflexivity.
Defined.

(** ** What the routes of the ledger never do *)

Lemma purchase_ledger_answered (db : database) (env : purchase_env)
  (req : request purchase_body) (o : outcome) :
  purchase_ledger db env req = inl o ->
  db_after o = db /\ success (sent o) = false.
Proof.
  unfold purchase_ledger, Supabase.insert.
  destruct (user_id_of req); [|now intros [= <-]].
  destruct (_ || _); [now intros [= <-]|].
  destruct (Supabase.data _); [now intros [= <-]|].
  destruct (end_of _ _); [|now intros [= <-]].
  destruct (inserted env); [now intros [= <-]|].
  destruct (existsb _ _); [now intros [= <-] | discriminate].
Qed.

Lemma purchase_refused_unchanged (db : database) (env : purchase_env)
  (req : request purchase_body) :
  success (sent (purchase db env req)) = false ->
  db_after (purchase db env req) = db.
Proof.
  unfold purchase.
  destruct (purchase_ledger db env req) as [o|c] eqn:Hl.
  - intros _. now apply purchase_ledger_answered in Hl.
  - destruct (Supabase.update _ _ _ _). discriminate.
Qed.

Lemma cancel_refused_unchanged (db : database) (env : cancel_env)
  (req : request unit) :
  success (sent (cancel db env req)) = false ->
  db_after (cancel db env req) = db.
Proof.
  unfold cancel, Supabase.update_single.
  destruct (user_id_of req) as [vendorId|]; [|reflexivity].
  destruct (update_fault env); [reflexivity|].
  destruct (filter (owned (params_id req) vendorId) (vendor_promotions db))
    as [|r [|r' l]]; try reflexivity.
  destruct (Supabase.update _ _ _ _). discriminate.
Qed.

Lemma review_refused_unchanged (db : database) (env : review_env)
  (req : request review_body) :
  success (sent (review db env req)) = false ->
  db_after (review db env req) = db.
Proof.
  unfold review, Supabase.update_single.
  destruct (not_admin req); [reflexivity|].
  destruct (decision _) as [status|]; [|reflexivity].
  destruct (review_fault env); [reflexivity|].
  destruct (filter (reviewed req) (vlogger_posts db)) as [|r [|r' l]];
    try reflexivity.
  discriminate.
Qed.

(** X5.  A purchase, a cancellation or a review that is answered with
    [success: false], whatever the reason (no user, a missing field, a
    conflict, no such row, a statement the gateway refuses), leaves the
    database exactly as it was; listing promotions never writes. *)
Theorem refusals_write_nothing
  (db : database)
  (penv : purchase_env) (preq : request purchase_body)
  (cenv : cancel_env) (creq : request unit)
  (renv : review_env) (rreq : request review_body)
  (fault : option Supabase.error) (lreq : request unit) :
  (success (sent (purchase db penv preq)) = false ->
   db_after (purchase db penv preq) = db)
  /\ (success (sent (cancel db cenv creq)) = false ->
      db_after (cancel db cenv creq) = db)
  /\ (success (sent (review db renv rreq)) = false ->
      db_after (review db renv rreq) = db)
  /\ db_after (get_promotions db fault lreq) = db.
Proof.
  split; [apply purchase_refused_unchanged|].
  split; [apply cancel_refused_unchanged|].
  split; [apply review_refused_unchanged|].
  unfold get_promotions. destruct (user_id_of lreq); [|reflexivity].
  destruct (Supabase.select _ _ _); reflexivity.
Qed.

(** In [Sample.after_purchase]: a second purchase (conflict), a
    cancellation by another vendor and a review of a post that does not
    exist are refused and change nothing. *)
Lemma refusals_write_nothing_witness :
  let db := Sample.after_purchase in
  db_after (purchase db (Sample.at_time Sample.jan31 "p2")
              (Sample.as_vendor "v1" "" Sample.basic)) = db
  /\ db_after (cancel db (Sample.cancel_at Sample.jan31)
                 (Sample.as_vendor "v2" "p1" tt)) = db
  /\ db_after (review db (Sample.review_at Sample.jan31)
                 (Sample.as_admin "a1" "post9"
                    (Sample.verdict (JS.Str "approved") JS.Undefined
                       JS.Undefined))) = db.
Proof.
  intros db.
  destruct (refusals_write_nothing db
              (Sample.at_time Sample.jan31 "p2")
              (Sample.as_vendor "v1" "" Sample.basic)
              (Sample.cancel_at Sample.jan31)
              (Sample.as_vendor "v2" "p1" tt)
              (Sample.review_at Sample.jan31)
              (Sample.as_admin "a1" "post9"
                 (Sample.verdict (JS.Str "approved") JS.Undefined
                    JS.Undefined))
              None (Sample.as_vendor "v1" "" tt))
    as (Hp & Hc & Hr & _).
  split; [apply Hp; reflexivity|].
  split; [apply Hc; reflexivity | apply Hr; reflexivity].
Defined.

Lemma step_bought_columns (db : database) (op : operation) :
  exists added,
    map bought_columns (vendor_promotions (step db op))
    = map bought_columns (vendor_promotions db) ++ added.
Proof.
  destruct op as [env req | env req]; simpl.
  - destruct (purchase_promotions db env req)
      as [-> | (vendorId & p & _ & _ & _ & ->)].
    + exists []. now rewrite app_nil_r.
    + exists [bought_columns p]. now rewrite map_app.
  - destruct (cancel_promotions db env req) as [-> | [sel ->]].
    + exists []. now rewrite app_nil_r.
    + exists []. rewrite app_nil_r, map_map. apply map_ext.
      intros x. destruct (sel x); reflexivity.
Qed.

(** X6.  The ledger only grows, and what a purchase stored stays: after any
    purchases and cancellations the rows of before are all there, in their
    order, with the id, vendor, package, price, duration, start and end
    date, payment and creation time they had; the rows added come after
    them.  No route deletes a promotion or moves its end date. *)
Theorem ledger_only_grows (ops : list operation) (db : database) :
  exists added,
    map bought_columns (vendor_promotions (run db ops))
    = map bought_columns (vendor_promotions db) ++ added.
Proof.
  unfold run. revert db. induction ops as [|op ops IH]; intros db; simpl.
  - exists []. now rewrite app_nil_r.
  - destruct (IH (step db op)) as [l2 H2].
    destruct (step_bought_columns db op) as [l1 H1].
    exists (l1 ++ l2). rewrite H2, H1.
    now rewrite app_assoc.
Qed.

Lemma step_written_status (db : database) (op : operation) :
  Forall written_status (vendor_promotions db) ->
  Forall written_status (vendor_promotions (step db op)).
Proof.
  intros Hdb. destruct op as [env req | env req]; simpl.
  - unfold purchase.
    destruct (purchase_ledger db env req) as [o|c] eqn:Hl.
    + apply purchase_ledger_answered in Hl as [-> _]. exact Hdb.
    + destruct (purchase_ledger_commit _ _ _ _ Hl)
        as (vendorId & endDate & i & _ & _ & _ & _ & _ & _ & ->).
      destruct (Supabase.update _ _ _ _). simpl.
      apply Forall_app. split; [exact Hdb|].
      constructor; [now left | constructor].
  - destruct (cancel_promotions db env req) as [-> | [sel ->]];
      [exact Hdb|].
    apply Forall_map. apply Forall_impl with (2 := Hdb).
    intros p Hp. destruct (sel p); [now right | exact Hp].
Qed.

(** X7.  The routes of the ledger write the statuses "active" and "cancelled"
    and no other: when every stored promotion has one of the two, so has
    every promotion after any purchases and cancellations.  In particular
    no promotion is ever stored as expired. *)
Theorem ledger_statuses (ops : list operation) (db : database) :
  Forall written_status (vendor_promotions db) ->
  Forall written_status (vendor_promotions (run db ops))
  /\ forall p, In p (vendor_promotions (run db ops)) -> status p <> "expired".
Proof.
  intros Hdb.
  assert (H : Forall written_status (vendor_promotions (run db ops))).
  { unfold run. revert db Hdb.
    induction ops as [|op ops IH]; intros db Hdb; simpl; [exact Hdb|].
    apply IH. now apply step_written_status. }
  split; [exact H|].
  intros p Hin. rewrite Forall_forall in H.
  destruct (H p Hin) as [-> | ->]; discriminate.
Qed.

Lemma ledger_statuses_witness :
  Forall written_status
    (vendor_promotions (run Sample.market Sample.history)).
Proof.
  apply (ledger_statuses Sample.history Sample.market). constructor.
Defined.

(** ** The order of a listing *)

Lemma insert_desc_permutation (p : promotion) (ps : list promotion) :
  Permutation (insert_desc p ps) (p :: ps).
Proof.
  induction ps as [|q qs IH]; simpl; [reflexivity|].
  destruct (created_at q <? created_at p); [reflexivity|].
  rewrite IH. apply perm_swap.
Qed.

Lemma order_desc_permutation (ps : list promotion) :
  Permutation (order_desc ps) ps.
Proof.
  induction ps as [|p ps IH]; simpl; [reflexivity|].
  rewrite insert_desc_permutation. now constructor.
Qed.

Lemma insert_desc_sorted (p : promotion) (ps : list promotion) :
  StronglySorted newer ps -> StronglySorted newer (insert_desc p ps).
Proof.
  induction ps as [|q qs IH]; simpl; intros Hs.
  - repeat constructor.
  - apply StronglySorted_inv in Hs as [Hqs Hq].
    destruct (Z.ltb_spec (created_at q) (created_at p)) as [Hlt|Hge].
    + constructor; [now constructor|].
      constructor; [unfold newer; lia|].
      apply Forall_impl with (2 := Hq). unfold newer. intros x Hx. lia.
    + constructor; [now apply IH|].
      apply Forall_forall. intros x Hx.
      apply (Permutation_in _ (insert_desc_permutation p qs)) in Hx.
      destruct Hx as [<-|Hx]; [exact Hge|].
      rewrite Forall_forall in Hq. now apply Hq.
Qed.

Lemma order_desc_sorted (ps : list promotion) :
  StronglySorted newer (order_desc ps).
Proof.
  induction ps as [|p ps IH]; simpl; [constructor|].
  now apply insert_desc_sorted.
Qed.

(** X8.  [GET /api/vendor-promotions], the gateway answering: the promotions
    listed are the rows of the vendor, each as often as it is stored, in
    the order of their creation times, the newest first. *)
Theorem get_promotions_newest_first
  (db : database) (req : request unit) (vendorId : string) :
  user_id_of req = Some vendorId ->
  let ps := listed (get_promotions db None req) in
  StronglySorted newer ps
  /\ Permutation ps
       (filter (fun p => (vendor_id p =? vendorId)%string)
          (vendor_promotions db)).
Proof.
  intros Hu. unfold get_promotions, listed. rewrite Hu. simpl.
  split; [apply order_desc_sorted | apply order_desc_permutation].
Qed.

(** The listing of the vendor of [Scenario.after_rebuy]. *)
Lemma get_promotions_newest_first_witness :
  StronglySorted newer
    (listed (get_promotions Scenario.after_rebuy None
               (Sample.as_vendor "v1" "" tt))).
Proof.
  exact (proj1 (get_promotions_newest_first Scenario.after_rebuy
                  (Sample.as_vendor "v1" "" tt) "v1" eq_refl)).
Defined.

(** ** A purchase after a cancellation *)





(* ------------------------------------------------------------------ *)
(** * Further properties of the moderation queue *)

Lemma review_posts (db : database) (env : review_env)
  (req : request review_body) :
  vlogger_posts (db_after (review db env req)) = vlogger_posts db
  \/ exists status,
       decision (b_status (body req)) = Some status
       /\ vlogger_posts (db_after (review db env req))
          = map (fun x => if reviewed req x
                          then apply (updateData env req status) x else x)
              (vlogger_posts db).
Proof.
  unfold review, Supabase.update_single.
  destruct (not_admin req); [now left|].
  destruct (decision _) as [status|]; [|now left].
  destruct (review_fault env); [now left|].
  destruct (filter (reviewed req) (vlogger_posts db)) as [|r [|r' l]];
    [now left| |now left].
  right. exists status. split; reflexivity.
Qed.

(** X12.  A review changes the post it names and no other: whatever the request
    and whatever the gateway does, the posts are after the review the same
    in number and order, each with the id it had, and a post with another
    id than the one of the request is exactly as it was.  Also the
    promotions and the vendors are as they were. *)
Theorem review_touches_one_post
  (db : database) (env : review_env) (req : request review_body) :
  let db' := db_after (review db env req) in
  map post_id (vlogger_posts db') = map post_id (vlogger_posts db)
  /\ filter (fun p => negb (reviewed req p)) (vlogger_posts db')
     = filter (fun p => negb (reviewed req p)) (vlogger_posts db)
  /\ vendor_promotions db' = vendor_promotions db
  /\ vendors db' = vendors db.
Proof.
  intros db'. unfold db'. split; [|split].
  - destruct (review_posts db env req) as [-> | (status & _ & ->)];
      [reflexivity|].
    rewrite map_map. apply map_ext. intros x.
    destruct (reviewed req x); reflexivity.
  - destruct (review_posts db env req) as [-> | (status & _ & ->)];
      [reflexivity|].
    induction (vlogger_posts db) as [|x l IH]; simpl; [reflexivity|].
    destruct (reviewed req x) eqn:Hx; simpl.
    + unfold reviewed in *. simpl. rewrite Hx. simpl. exact IH.
    + rewrite Hx. simpl. now rewrite IH.
  - unfold review, Supabase.update_single.
    destruct (not_admin req); [now split|].
    destruct (decision _) as [status|]; [|now split].
    destruct (review_fault env); [now split|].
    destruct (filter (reviewed req) (vlogger_posts db)) as [|r [|r' l]];
      now split.
Qed.

(** X13.  A rejection after an approval keeps the payout.  When an admin approves
    a post with a payout that reads as a number [x], and the post is then
    rejected in a second review, both updates going through: the post is
    stored as rejected, reviewed at the time and by the admin of the second
    review, and with the payout [x] of the first. *)
Theorem rejection_keeps_earlier_payout
  (db : database) (env1 env2 : review_env)
  (req1 req2 : request review_body) (p : post) (x : Q) :
  not_admin req1 = false -> not_admin req2 = false ->
  params_id req2 = params_id req1 ->
  b_status (body req1) = JS.Str "approved" ->
  b_status (body req2) = JS.Str "rejected" ->
  JS.truthy (b_payout_amount (body req1)) = true ->
  JS.parseFloat (b_payout_amount (body req1)) = JS.Fin x ->
  review_fault env1 = None -> review_fault env2 = None ->
  filter (reviewed req1) (vlogger_posts db) = [p] ->
  let db2 := db_after (review (db_after (review db env1 req1)) env2 req2) in
  exists p2,
    filter (reviewed req2) (vlogger_posts db2) = [p2]
    /\ post_id p2 = post_id p
    /\ post_status p2 = "rejected"
    /\ payout_amount p2 = Some (JS.Fin x)
    /\ reviewed_at p2 = Some (now_reviewed env2).
Proof.
  intros Ha1 Ha2 Hid Hs1 Hs2 Ht Hx Hf1 Hf2 Hone db2.
  assert (Hsel : forall y, reviewed req2 y = reviewed req1 y)
    by (intros y; unfold reviewed; now rewrite Hid).
  assert (Hkeep : forall u y, reviewed req1 (apply u y) = reviewed req1 y)
    by reflexivity.
  set (u1 := updateData env1 req1 "approved").
  set (u2 := updateData env2 req2 "rejected").
  assert (H1 : vlogger_posts (db_after (review db env1 req1))
               = map (fun y => if reviewed req1 y then apply u1 y else y)
                   (vlogger_posts db)).
  { unfold review, Supabase.update_single.
    rewrite Ha1, Hs1, decision_approved, Hf1, Hone. reflexivity. }
  assert (Hone1 : filter (reviewed req2)
                    (vlogger_posts (db_after (review db env1 req1)))
                  = [apply u1 p]).
  { rewrite H1, (filter_ext _ _ Hsel).
    rewrite filter_patch_selected by (apply Hkeep). now rewrite Hone. }
  assert (H2 : vlogger_posts db2
               = map (fun y => if reviewed req2 y then apply u2 y else y)
                   (vlogger_posts (db_after (review db env1 req1)))).
  { unfold db2, review at 1, Supabase.update_single.
    rewrite Ha2, Hs2, decision_rejected, Hf2, Hone1. reflexivity. }
  exists (apply u2 (apply u1 p)). split.
  - rewrite H2, filter_patch_selected, Hone1; [reflexivity|].
    intros y. rewrite !Hsel. apply Hkeep.
  - unfold u1, u2, apply, updateData. simpl. rewrite Ht, Hx.
    repeat split.
Qed.

(** The pending post of [Sample.queue] is approved with a payout of 750 and
    rejected two weeks later. *)
Lemma rejection_keeps_earlier_payout_witness :
  let req1 := Sample.as_admin "a1" "post2"
                (Sample.verdict (JS.Str "approved") JS.Undefined
                   (JS.Str "750")) in
  let req2 := Sample.as_admin "a2" "post2"
                (Sample.verdict (JS.Str "rejected") (JS.Str "withdrawn")
                   JS.Undefined) in
  exists p2,
    filter (reviewed req2)
      (vlogger_posts
         (db_after (review (db_after (review Sample.queue
                                        (Sample.review_at Sample.jan15) req1))
                      (Sample.review_at Sample.jan31) req2))) = [p2]
    /\ post_status p2 = "rejected"
    /\ payout_amount p2 = Some (JS.Fin 750).
Proof.
  intros req1 req2.
  destruct (rejection_keeps_earlier_payout Sample.queue
              (Sample.review_at Sample.jan15) (Sample.review_at Sample.jan31)
              req1 req2 Sample.pending_post 750
              eq_refl eq_refl eq_refl eq_refl eq_refl eq_refl eq_refl
              eq_refl eq_refl eq_refl)
    as (p2 & Hone & _ & Hs & Hp & _).
  exists p2. repeat split; assumption.
Defined.

(* ------------------------------------------------------------------ *)
(** * The catalog and the purchase *)

(** X15.  Every package of the catalog can be bought as it is offered: a purchase
    that carries its id, name, price and duration passes the test of the
    package details, its price is a positive number, and its duration is
    one for which the purchase route moves the end date, by 1, 3 or 6
    months as the duration says. *)
Theorem catalog_packages_are_scheduled
  (pk : PromotionPackages.package) (env : purchase_env) :
  In pk PromotionPackages.packages ->
  package_details (PromotionPackages.order pk) = true
  /\ positive
       (JS.parseFloat (b_package_price (PromotionPackages.order pk))) = true
  /\ exists n,
       In (PromotionPackages.pk_duration pk, n)
         [("1 Month", 1); ("3 Months", 3); ("6 Months", 6)]
       /\ end_of env (b_package_duration (PromotionPackages.order pk))
          = JSDate.setMonth (tz env) (now_end env)
              (JSDate.getMonth (tz env) (now_end env) + n).
Proof.
  intros [<-|[<-|[<-|[]]]]; (split; [reflexivity|]);
    (split; [reflexivity|]).
  - exists 1. split; [now left | reflexivity].
  - exists 3. split; [right; now left | reflexivity].
  - exists 6. split; [right; right; now left | reflexivity].
Qed.

Lemma catalog_packages_are_scheduled_witness :
  Forall (fun pk => package_details (PromotionPackages.order pk) = true)
    PromotionPackages.packages.
Proof.
  apply Forall_forall. intros pk Hin.
  apply (catalog_packages_are_scheduled pk
           (Sample.at_time Sample.jan15 "p1") Hin).
Defined.

(* ------------------------------------------------------------------ *)
(** * The submission of a sponsored post *)

Section Submission.

Import VloggerPosts.

Lemma required_fields_tested (b : submit_body) :
  negb (JS.truthy (b_vendor_id b)) || negb (JS.truthy (b_post_title b))
  || negb (JS.truthy (b_post_url b)) || negb (JS.truthy (b_platform b))
  = negb (required_fields b).
Proof.
  unfold required_fields.
  destruct (JS.truthy (b_vendor_id b)), (JS.truthy (b_post_title b)),
    (JS.truthy (b_post_url b)), (JS.truthy (b_platform b)); reflexivity.
Qed.

(** X16.  A file that is not an image is never stored: whoever sends it and
    whatever the fields of the request, the handler is not run, the
    application's error handler answers, and neither the bucket nor the
    table changes. *)
Theorem submit_refuses_other_files
  (st : store) (env : submit_env) (req : request submit_body) (f : file) :
  fileFilter f = false ->
  submit st env req (Some f)
  = {| answered := Crashed OnlyImages; store_after := st;
       printed_lines := [Stack OnlyImages] |}.
Proof.
  intros Hf. unfold submit, upload_single. now rewrite Hf.
Qed.

Lemma submit_refuses_other_files_witness :
  store_after (submit Desk.nothing (Desk.going_through "post1")
                 (Desk.as_vlogger "u1" Desk.reel) (Some Desk.notes))
  = Desk.nothing.
Proof.
  rewrite (submit_refuses_other_files Desk.nothing
             (Desk.going_through "post1") (Desk.as_vlogger "u1" Desk.reel)
             Desk.notes eq_refl).
  reflexivity.
Defined.

(** X17.  The required fields are tested before anything is stored: a submission
    by an authenticated vlogger in which the vendor, the title, the URL or
    the platform is missing or falsy is refused with status 400, and the
    screenshot that came with it is not uploaded. *)
Theorem submit_requires_fields
  (st : store) (env : submit_env) (req : request submit_body)
  (sent_file req_file : option file) (vloggerId : string) :
  upload_single sent_file = inr req_file ->
  user_id_of req = Some vloggerId ->
  required_fields (body req) = false ->
  submit st env req sent_file
  = {| answered :=
         Refused 400 (Text "Vendor, title, URL, and platform are required");
       store_after := st; printed_lines := [] |}.
Proof.
  intros Hm Hu Hr. unfold submit.
  rewrite Hm, Hu, required_fields_tested, Hr. reflexivity.
Qed.

Lemma submit_requires_fields_witness :
  store_after (submit Desk.nothing (Desk.going_through "post1")
                 (Desk.as_vlogger "u1" Desk.untitled) (Some Desk.shot))
  = Desk.nothing.
Proof.
  rewrite (submit_requires_fields Desk.nothing (Desk.going_through "post1")
             (Desk.as_vlogger "u1" Desk.untitled) (Some Desk.shot)
             (Some Desk.shot) "u1" eq_refl eq_refl eq_refl).
  reflexivity.
Defined.

(** X18.  When the screenshot cannot be stored, because the gateway refuses the
    upload or the name is taken in the bucket, the submission is refused
    with status 400, the error is printed, and no post is inserted. *)
Theorem submit_needs_the_upload
  (st : store) (env : submit_env) (req : request submit_body)
  (f : file) (vloggerId : string) (uploadError : Supabase.error) :
  upload_single (Some f) = inr (Some f) ->
  user_id_of req = Some vloggerId ->
  required_fields (body req) = true ->
  fst (storage_upload (upload_fault env) (fileName vloggerId env f)
         (buffer f) (mimetype f) (media st)) = Some uploadError ->
  submit st env req (Some f)
  = {| answered := Refused 400 (Text "Failed to upload screenshot");
       store_after := st;
       printed_lines := [UploadError uploadError] |}.
Proof.
  intros Hm Hu Hr Hup. unfold submit.
  rewrite Hm, Hu, required_fields_tested, Hr. simpl negb. cbv iota.
  destruct (storage_upload _ _ _ _ _) as [[e|] bucket]; simpl in Hup;
    [|discriminate].
  now injection Hup as ->.
Qed.

Lemma submit_needs_the_upload_witness :
  submit Desk.nothing Desk.upload_refused (Desk.as_vlogger "u1" Desk.reel)
    (Some Desk.shot)
  = {| answered := Refused 400 (Text "Failed to upload screenshot");
       store_after := Desk.nothing;
       printed_lines :=
         [UploadError (Supabase.Refused "Bucket not found")] |}.
Proof.
  exact (submit_needs_the_upload Desk.nothing Desk.upload_refused
           (Desk.as_vlogger "u1" Desk.reel) Desk.shot "u1"
           (Supabase.Refused "Bucket not found")
           eq_refl eq_refl eq_refl eq_refl).
Defined.

(** X19.  A screenshot can outlive its submission: when the upload went through
    and the insert of the post is then refused, the submission is answered
    400 with the message of the insert, no post is stored, and the
    screenshot stays in the bucket under the name it was given. *)
Theorem submit_leaves_the_upload
  (st : store) (env : submit_env) (req : request submit_body)
  (f : file) (vloggerId : string) (insertError : Supabase.error) :
  upload_single (Some f) = inr (Some f) ->
  user_id_of req = Some vloggerId ->
  required_fields (body req) = true ->
  upload_fault env = None ->
  existsb (fun o => (o_name o =? fileName vloggerId env f)%string) (media st)
  = false ->
  post_inserted env = inl insertError ->
  let o := submit st env req (Some f) in
  answered o = Refused 400 (ErrorMessage insertError)
  /\ posts (store_after o) = posts st
  /\ media (store_after o)
     = media st ++ [ {| o_name := fileName vloggerId env f;
                        o_content := buffer f;
                        o_contentType := mimetype f |} ].
Proof.
  intros Hm Hu Hr Hf Hfree Hi o. unfold o, submit.
  rewrite Hm, Hu, required_fields_tested, Hr. simpl negb. cbv iota.
  unfold storage_upload. rewrite Hf, Hfree.
  unfold insert_post, Supabase.insert. rewrite Hi. repeat split.
Qed.

Lemma submit_leaves_the_upload_witness :
  let o := submit Desk.nothing Desk.insert_refused
             (Desk.as_vlogger "u1" Desk.reel) (Some Desk.shot) in
  posts (store_after o) = []
  /\ map o_name (media (store_after o))
     = ["vlogger-posts/u1/1736935200000-shot.png"].
Proof.
  intros o.
  destruct (submit_leaves_the_upload Desk.nothing Desk.insert_refused
              (Desk.as_vlogger "u1" Desk.reel) Desk.shot "u1"
              (Supabase.Refused "violates foreign key constraint")
              eq_refl eq_refl eq_refl eq_refl eq_refl eq_refl)
    as (_ & Hp & Hmedia).
  split; [exact Hp|]. unfold o. rewrite Hmedia. reflexivity.
Defined.

(** X20.  What a submission stores.  Whatever the request and the gateway: when
    the answer is 201 with a post, that post is appended to the table as
    pending, under the id of the caller and with the clock reading of the
    request, and it has a screenshot address exactly when a file came with
    the request; with any other answer the table is as it was.  No
    submission changes or removes a post that is stored. *)
Theorem submit_stores_pending_post
  (st : store) (env : submit_env) (req : request submit_body)
  (sent_file : option file) :
  let o := submit st env req sent_file in
  (forall p, answered o = Created p ->
     posts (store_after o) = posts st ++ [p]
     /\ s_status p = "pending"
     /\ user_id_of req = Some (s_vlogger_id p)
     /\ s_submitted_at p = now_submitted env
     /\ (s_screenshot_url p = None <-> sent_file = None))
  /\ ((forall p, answered o <> Created p) ->
      posts (store_after o) = posts st).
Proof.
  assert (Hins : forall bucket vloggerId shot,
    let o := insert_post st bucket env vloggerId (body req) shot in
    (forall p, answered o = Created p ->
       posts (store_after o) = posts st ++ [p]
       /\ s_status p = "pending" /\ s_vlogger_id p = vloggerId
       /\ s_submitted_at p = now_submitted env
       /\ s_screenshot_url p = shot)
    /\ ((forall p, answered o <> Created p) ->
        posts (store_after o) = posts st)).
  { intros bucket vloggerId shot. unfold insert_post, Supabase.insert.
    destruct (post_inserted env) as [e|i]; simpl.
    - split; [discriminate | reflexivity].
    - destruct (existsb _ _); simpl.
      + split; [discriminate | reflexivity].
      + split; [intros p [= <-]; repeat split|].
        intros H. exfalso. eapply H. reflexivity. }
  intros o. unfold o, submit.
  destruct sent_file as [f|]; simpl upload_single.
  - destruct (negb (fileFilter f));
      [split; [discriminate | reflexivity]|].
    destruct (fileSize <? _); [split; [discriminate | reflexivity]|].
    destruct (user_id_of req) as [vloggerId|];
      [|split; [discriminate | reflexivity]].
    destruct (_ || _); [split; [discriminate | reflexivity]|].
    destruct (storage_upload _ _ _ _ _) as [[e|] bucket];
      [split; [discriminate | reflexivity]|].
    destruct (Hins bucket vloggerId
                (Some (getPublicUrl env (fileName vloggerId env f))))
      as [Hc Hn].
    split; [|exact Hn].
    intros p Hp. destruct (Hc p Hp) as (H1 & H2 & H3 & H4 & H5).
    rewrite H3, H5. repeat split; try assumption; discriminate.
  - destruct (user_id_of req) as [vloggerId|];
      [|split; [discriminate | reflexivity]].
    destruct (_ || _); [split; [discriminate | reflexivity]|].
    destruct (Hins (media st) vloggerId None) as [Hc Hn].
    split; [|exact Hn].
    intros p Hp. destruct (Hc p Hp) as (H1 & H2 & H3 & H4 & H5).
    rewrite H3, H5. repeat split; assumption.
Qed.

Lemma submit_stores_pending_post_witness :
  let o := submit Desk.nothing (Desk.going_through "post1")
             (Desk.as_vlogger "u1" Desk.reel) (Some Desk.shot) in
  exists p,
    answered o = Created p
    /\ posts (store_after o) = [p]
    /\ s_status p = "pending".
Proof.
  intros o. eexists. split; [reflexivity|].
  destruct (submit_stores_pending_post Desk.nothing
              (Desk.going_through "post1") (Desk.as_vlogger "u1" Desk.reel)
              (Some Desk.shot)) as [Hc _].
  destruct (Hc _ eq_refl) as (Hposts & Hs & _).
  split; [exact Hposts | exact Hs].
Defined.

End Submission.

(* ------------------------------------------------------------------ *)
(** * The update of a vendor *)

Section VendorUpdate.

Import Vendors.

Lemma get_delete_same (k : string) (o : object) : get k (delete k o) = None.
Proof.
  induction o as [|[k' v] o IH]; simpl; [reflexivity|].
  destruct (String.eqb_spec k' k) as [->|Hk]; simpl; [exact IH|].
  apply String.eqb_neq in Hk. now rewrite Hk.
Qed.

Lemma get_delete_other (k k' : string) (o : object) :
  k <> k' -> get k (delete k' o) = get k o.
Proof.
  intros Hk. induction o as [|[k0 v] o IH]; simpl; [reflexivity|].
  destruct (String.eqb_spec k0 k') as [->|H0]; simpl.
  - apply not_eq_sym, String.eqb_neq in Hk. now rewrite Hk.
  - now rewrite IH.
Qed.

Lemma get_set_same (k : string) (v : member) (o : object) :
  get k (set k v o) = Some v.
Proof.
  induction o as [|[k' v'] o IH]; simpl.
  - now rewrite String.eqb_refl.
  - destruct (String.eqb_spec k' k) as [->|Hk]; simpl.
    + now rewrite String.eqb_refl.
    + apply String.eqb_neq in Hk. now rewrite Hk.
Qed.

Lemma get_set_other (k k' : string) (v : member) (o : object) :
  k <> k' -> get k (set k' v o) = get k o.
Proof.
  intros Hk. apply not_eq_sym in Hk.
  induction o as [|[k0 v0] o IH]; simpl.
  - apply String.eqb_neq in Hk. now rewrite Hk.
  - destruct (String.eqb_spec k0 k') as [->|H0]; simpl.
    + apply String.eqb_neq in Hk. now rewrite Hk.
    + now rewrite IH.
Qed.

(** X21.  What [PUT /api/vendors/:id] lets a request write.  The object given to
    [.update] never has an [id], a [created_at] or a [rating], its
    [updated_at] is the time of the request whatever the body says, and
    every other member of the body is in it with the value of the body:
    the route filters nothing else, also not [is_featured],
    [promotion_tier], [featured_until] or [verified]. *)
Theorem vendor_update_passes_other_members
  (req_body : object) (now : Z) (k : string) :
  let u := updateData req_body now in
  get "id" u = None
  /\ get "created_at" u = None
  /\ get "rating" u = None
  /\ get "updated_at" u = Some (Time now)
  /\ (k <> "id" -> k <> "created_at" -> k <> "rating" ->
      k <> "updated_at" -> get k u = get k req_body).
Proof.
  intros u. unfold u, updateData.
  split; [|split; [|split; [|split]]].
  - rewrite get_set_other by discriminate.
    rewrite !get_delete_other by discriminate. apply get_delete_same.
  - rewrite get_set_other by discriminate.
    rewrite get_delete_other by discriminate. apply get_delete_same.
  - rewrite get_set_other by discriminate. apply get_delete_same.
  - apply get_set_same.
  - intros H1 H2 H3 H4.
    rewrite get_set_other by assumption.
    now rewrite !get_delete_other by assumption.
Qed.

(** The body [Desk.takeover] loses its id and rating and keeps the rest. *)
Lemma vendor_update_passes_other_members_witness :
  get "is_featured" (updateData Desk.takeover Sample.jan15)
  = Some (Value (JS.Boolean true))
  /\ get "rating" (updateData Desk.takeover Sample.jan15) = None.
Proof.
  destruct (vendor_update_passes_other_members Desk.takeover Sample.jan15
              "is_featured") as (_ & _ & Hr & _ & Hk).
  split; [|exact Hr].
  rewrite Hk by discriminate. reflexivity.
Defined.

End VendorUpdate.

(* ------------------------------------------------------------------ *)
(** * The check before the insert *)

Lemma single_data_length {A : Type} (l : list A) :
  (exists r, Supabase.data (Supabase.single l) = Some r)
  <-> List.length l = 1%nat.
Proof.
  destruct l as [|x [|y l]]; simpl; split;
    try discriminate; try reflexivity; try (intros [r H]; discriminate).
  intros _. now exists x.
Qed.

(** X10.  When a purchase is refused as a conflict.  For an authenticated vendor
    who sends all four package fields, the answer is the refusal "You
    already have an active promotion" exactly when the gateway answered the
    check and the vendor has exactly one active promotion: a check that the
    gateway refuses, and a vendor with two or more active promotions (for
    which [.single()] gives no row), do not stop the purchase. *)
Theorem purchase_conflict_exactly_when
  (db : database) (env : purchase_env) (req : request purchase_body)
  (vendorId : string) :
  user_id_of req = Some vendorId ->
  package_details (body req) = true ->
  purchase db env req
  = fail db 400
      (Text "You already have an active promotion. Please wait for it to expire.")
  <-> check_fault env = None
      /\ List.length (active_rows vendorId db) = 1%nat.
Proof.
  intros Hu Hd. split.
  - unfold purchase.
    destruct (purchase_ledger db env req) as [o|c] eqn:Hl.
    + intros ->. revert Hl.
      unfold purchase_ledger, Supabase.insert, Supabase.select_single.
      rewrite Hu, package_details_tested, Hd. simpl negb. cbv iota.
      destruct (check_fault env) as [e|].
      * simpl. destruct (end_of _ _); [|discriminate].
        destruct (inserted env); [discriminate|].
        destruct (existsb _ _); discriminate.
      * destruct (Supabase.data _) eqn:Hcheck.
        -- intros _. split; [reflexivity|].
           apply single_data_length. eauto.
        -- destruct (end_of _ _); [|discriminate].
           destruct (inserted env); [discriminate|].
           destruct (existsb _ _); discriminate.
    + destruct (Supabase.update _ _ _ _). discriminate.
  - intros [Hf Hone]. apply single_data_length in Hone as [r Hr].
    apply purchase_conflict with (vendorId := vendorId) (existing := r);
      try assumption.
    unfold Supabase.select_single. now rewrite Hf.
Qed.

(** The second purchase of [Sample.history] is refused as a conflict. *)
Lemma purchase_conflict_exactly_when_witness :
  purchase Sample.after_purchase
    (Sample.at_time (Sample.jan15 + 86400000) "p2")
    (Sample.as_vendor "v1" "" Sample.basic)
  = fail Sample.after_purchase 400
      (Text "You already have an active promotion. Please wait for it to expire.").
Proof.
  apply (purchase_conflict_exactly_when Sample.after_purchase
           (Sample.at_time (Sample.jan15 + 86400000) "p2")
           (Sample.as_vendor "v1" "" Sample.basic) "v1" eq_refl eq_refl).
  split; reflexivity.
Defined.



(* ------------------------------------------------------------------ *)
(** * The record of an approval *)

(** X14.  An approval with a payout.  When an admin with the id [a] approves the
    one post with the given id and the request carries a payout that is
    truthy and reads as the number [x], the update going through: the post
    is stored and returned as approved, with the payout [x], reviewed by
    [a] at the time of the request, with the notes of the request or, when
    they are absent or empty, none; its id is the one it had. *)
Theorem approval_records_payout
  (db : database) (env : review_env) (req : request review_body)
  (p : post) (a : string) (x : Q) :
  not_admin req = false ->
  adminId req = Some a ->
  b_status (body req) = JS.Str "approved" ->
  JS.truthy (b_payout_amount (body req)) = true ->
  JS.parseFloat (b_payout_amount (body req)) = JS.Fin x ->
  review_fault env = None ->
  filter (reviewed req) (vlogger_posts db) = [p] ->
  let stored :=
    {| post_id := post_id p;
       post_status := "approved";
       admin_notes := JS.or_else (b_admin_notes (body req)) JS.Null;
       payout_amount := Some (JS.Fin x);
       reviewed_at := Some (now_reviewed env);
       reviewed_by := Some a |} in
  sent (review db env req)
  = {| code := 200; success := true;
       msg := Some (Text "Post approved successfully");
       payload_of := Post stored |}
  /\ filter (reviewed req) (vlogger_posts (db_after (review db env req)))
     = [stored].
Proof.
  intros Hadmin Ha Hs Ht Hx Hf Hone stored.
  assert (Hst : apply (updateData env req "approved") p = stored).
  { unfold stored, apply, updateData. simpl. now rewrite Ht, Hx, Ha. }
  unfold review, Supabase.update_single.
  rewrite Hadmin, Hs, decision_approved, Hf, Hone. simpl.
  rewrite Hst. split; [reflexivity|].
  rewrite filter_patch_selected by reflexivity.
  now rewrite Hone, <- Hst.
Qed.

(** The admin "a2" approves the pending post of [Sample.queue] with the
    payout "500". *)
Lemma approval_records_payout_witness :
  payload_of
    (sent (review Sample.queue (Sample.review_at Sample.jan31)
             (Sample.as_admin "a2" "post2"
                (Sample.verdict (JS.Str "approved") (JS.Str "")
                   (JS.Str "500")))))
  = Post {| post_id := "post2"; post_status := "approved";
            admin_notes := JS.Null; payout_amount := Some (JS.Fin 500);
            reviewed_at := Some Sample.jan31; reviewed_by := Some "a2" |}.
Proof.
  destruct (approval_records_payout Sample.queue
              (Sample.review_at Sample.jan31)
              (Sample.as_admin "a2" "post2"
                 (Sample.verdict (JS.Str "approved") (JS.Str "")
                    (JS.Str "500")))
              Sample.pending_post "a2" 500
              eq_refl eq_refl eq_refl eq_refl eq_refl eq_refl eq_refl)
    as [Hsent _].
  rewrite Hsent. reflexivity.
Defined.

(* ------------------------------------------------------------------ *)
(** * Numbers read from text *)

(** [parseFloat] rounds to binary64: past [2 ^ 53] not every integer is a
    number, a tie goes to the even significand, what lies beyond the range
    is an infinity, and text that starts with no number is NaN. *)
Lemma parseFloat_rounds :
  JS.parseFloat (JS.Str "500") = JS.Fin 500
  /\ JS.parseFloat (JS.Str "9007199254740993") = JS.Fin 9007199254740992
  /\ JS.parseFloat (JS.Str "9007199254740995") = JS.Fin 9007199254740996
  /\ JS.parseFloat (JS.Str "0.1")
     = JS.Fin (Qmake 3602879701896397 36028797018963968)
  /\ JS.parseFloat (JS.Str "1e400") = JS.Infinity false
  /\ JS.parseFloat (JS.Str "1e-400") = JS.Fin 0
  /\ JS.parseFloat (JS.Str "Rs 500") = JS.NaN.
Proof. vm_compute. repeat split. Qed.
